(** * Pub/Sub data feed of the paper trader

    A shallow embedding of [containers/paper-trader/pubsub_data_feed.py]:
    the [PubSubDataFeed] class (push callback, drain routine, reconnection
    monitor, [_load]) and the [MultiSymbolPubSubManager] that owns several
    feeds.

    Python objects that are mutated in place become explicit state: a feed
    is a record, methods are computations in a small state-and-exception
    monad, and the feeds created by the manager live in a store that the
    manager's dictionary and cerebro's data list point into.  Calls that
    leave the process (acknowledgements, subscriptions, sleeps, thread
    spawns) are appended to the feed's effect log. *)

From Stdlib Require Import ZArith Lia Ascii String QArith.
From stdpp Require Import base option list strings gmap.

Open Scope Z_scope.

(** ** Python values *)

(** The objects that [json.loads] can produce, over an abstract type [F]
    of Python floats.  Nothing in the module computes with a float: prices
    are converted by [float] and carried to the output lines. *)
#[warnings="-register-all"] Inductive pyval (F : Type) : Type :=
| VNone
| VBool (b : bool)
| VInt (z : Z)
| VFloat (x : F)
| VStr (s : string)
| VList (l : list (pyval F))
| VDict (d : gmap string (pyval F)).

Arguments VNone {F}.
Arguments VBool {F} b.
Arguments VInt {F} z.
Arguments VFloat {F} x.
Arguments VStr {F} s.
Arguments VList {F} l.
Arguments VDict {F} d.

(** Exception classes the module tells apart in its [except] clauses;
    [OtherException] stands for any other subclass of [Exception]. *)
Inductive exn : Type :=
| IndexError
| KeyError
| AttributeError
| QueueEmpty
| TimeoutError
| OtherException.

(** Outcome of a call: a value or a raised exception. *)
Inductive outcome (A : Type) : Type :=
| Ret (a : A)
| Raise (e : exn).

Arguments Ret {A} a.
Arguments Raise {A} e.

(** [str.replace(old, new)] for a one-character [old]. *)
Fixpoint str_replace (old : ascii) (new : string) (s : string) : string :=
  match s with
  | EmptyString => EmptyString
  | String c s' =>
      if bool_decide (c = old) then new +:+ str_replace old new s'
      else String c (str_replace old new s')
  end.

(** Lower-casing of the ASCII letters, which is what [str.lower()] does to
    an ASCII string; the small runtimes below use it. *)
Definition ascii_lower (c : ascii) : ascii :=
  let n := nat_of_ascii c in
  if (Nat.leb 65 n && Nat.leb n 90)%bool then ascii_of_nat (n + 32)%nat else c.

Fixpoint str_lower (s : string) : string :=
  match s with
  | EmptyString => EmptyString
  | String c s' => String (ascii_lower c) (str_lower s')
  end.

(** A small exception monad for the side-effect-free parts. *)
Definition outcome_bind {A B : Type} (m : outcome A) (k : A -> outcome B) : outcome B :=
  match m with
  | Ret a => k a
  | Raise e => Raise e
  end.

#[export] Instance outcome_mret : MRet outcome := fun _ a => Ret a.
#[export] Instance outcome_mbind : MBind outcome := fun _ _ k m => outcome_bind m k.

(** A library call that either returns or raises some [Exception]. *)
Definition lift_opt {A : Type} (o : option A) : outcome A :=
  match o with
  | Some a => Ret a
  | None => Raise OtherException
  end.

(** ** The Python runtime the module calls into

    None of these functions is defined in the repository: they are Python
    built-ins, the standard library, or backtrader.  A result of [None]
    means that the call raises. *)
Class PyRuntime (F datetime : Type) : Type := {
  (** [float(x)] *)
  py_float : pyval F -> option F;
  (** [datetime.fromisoformat(s)] *)
  fromisoformat : string -> option datetime;
  (** [datetime.fromtimestamp(x, tz=timezone.utc)] *)
  fromtimestamp : pyval F -> option datetime;
  (** [bt.date2num(dt)] *)
  date2num : datetime -> option F;
  (** [json.loads(data.decode('utf-8'))] *)
  json_loads : list Byte.byte -> option (pyval F);
  (** [dt.isoformat()] *)
  isoformat : datetime -> string;
  (** [s.lower()] *)
  py_lower : string -> string;
  (** the value a backtrader line holds before it is written *)
  NaN : F
}.

(** ** Data model *)

Section Feed.
Context {F datetime : Type} {RT : PyRuntime F datetime}.

(** A decoded JSON object: [message_data]. *)
Local Abbreviation dict := (gmap string (pyval F)).

(** [bar_data]: the dictionary built by [_process_market_data_message],
    with its seven fixed keys. *)
Record bar : Type := Bar {
  b_datetime : datetime;
  b_open : F;
  b_high : F;
  b_low : F;
  b_close : F;
  b_volume : F;
  b_vwap : F
}.

(** [self.lines]: the current slot ([[0]]) of each backtrader line of a
    [DataBase]. *)
Record lines_t : Type := Lines {
  l_datetime : F;
  l_open : F;
  l_high : F;
  l_low : F;
  l_close : F;
  l_volume : F;
  l_openinterest : F
}.

(** [params] of [PubSubDataFeed] (timeframe, compression and qcheck, which
    no modelled method reads, are left out). *)
Record params : Type := Params {
  project_id : string;
  subscription_name : string;
  symbol : string;
  name : string;
  max_buffer_size : nat;
  reconnect_timeout : Z;
  max_reconnect_attempts : Z
}.

Definition default_params : params :=
  {| project_id := ""; subscription_name := ""; symbol := ""; name := "";
     max_buffer_size := 1000; reconnect_timeout := 5;
     max_reconnect_attempts := 10 |}.

(** A streaming-pull future, named by a number. *)
Definition future : Type := nat.

(** A Pub/Sub message as the callback sees it. *)
Record message : Type := Message {
  msg_id : nat;
  msg_data : list Byte.byte
}.

(** Calls that leave the feed object.  Of the [print] calls only the
    attempt announcement of [_reconnect] is recorded. *)
Inductive effect : Type :=
| EAck (m : nat)
| ENack (m : nat)
| ESubscribe (f : future)
| ECancel (f : future)
| EClose
| ESleep (secs : Z)
| EPrintAttempt (n : Z)
| ESpawnMonitor
| ESpawnDrain.

(** The attributes of a [PubSubDataFeed] instance. *)
Record feed : Type := Feed {
  p : params;
  message_queue : list dict;
  data_buffer : list bar;
  last_bar : option bar;
  _streaming_pull_future : option future;
  running : bool;
  _reconnect_attempts : Z;
  lines : lines_t;
  log : list effect
}.

Definition set_message_queue (q : list dict) (s : feed) : feed :=
  Feed (p s) q (data_buffer s) (last_bar s) (_streaming_pull_future s)
       (running s) (_reconnect_attempts s) (lines s) (log s).
Definition set_data_buffer (b : list bar) (s : feed) : feed :=
  Feed (p s) (message_queue s) b (last_bar s) (_streaming_pull_future s)
       (running s) (_reconnect_attempts s) (lines s) (log s).
Definition set_last_bar (lb : option bar) (s : feed) : feed :=
  Feed (p s) (message_queue s) (data_buffer s) lb (_streaming_pull_future s)
       (running s) (_reconnect_attempts s) (lines s) (log s).
Definition set_future (f : option future) (s : feed) : feed :=
  Feed (p s) (message_queue s) (data_buffer s) (last_bar s) f
       (running s) (_reconnect_attempts s) (lines s) (log s).
Definition set_running (r : bool) (s : feed) : feed :=
  Feed (p s) (message_queue s) (data_buffer s) (last_bar s)
       (_streaming_pull_future s) r (_reconnect_attempts s) (lines s) (log s).
Definition set_attempts (n : Z) (s : feed) : feed :=
  Feed (p s) (message_queue s) (data_buffer s) (last_bar s)
       (_streaming_pull_future s) (running s) n (lines s) (log s).
Definition set_lines (l : lines_t) (s : feed) : feed :=
  Feed (p s) (message_queue s) (data_buffer s) (last_bar s)
       (_streaming_pull_future s) (running s) (_reconnect_attempts s) l (log s).
Definition set_log (l : list effect) (s : feed) : feed :=
  Feed (p s) (message_queue s) (data_buffer s) (last_bar s)
       (_streaming_pull_future s) (running s) (_reconnect_attempts s) (lines s) l.

(** ** The method monad: state of [self] plus exceptions *)

Definition M (A : Type) : Type := feed -> outcome A * feed.

Definition M_ret {A : Type} (a : A) : M A := fun s => (Ret a, s).

Definition M_bind {A B : Type} (m : M A) (k : A -> M B) : M B :=
  fun s =>
    match m s with
    | (Ret a, s') => k a s'
    | (Raise e, s') => (Raise e, s')
    end.

#[export] Instance M_mret : MRet M := @M_ret.
#[export] Instance M_mbind : MBind M := fun _ _ k m => M_bind m k.

Definition raise {A : Type} (e : exn) : M A := fun s => (Raise e, s).

(** [try: body except Exception as e: handler e].  What [body] did to
    [self] before it raised stays done. *)
Definition try_except {A : Type} (body : M A) (handler : exn -> M A) : M A :=
  fun s =>
    match body s with
    | (Ret a, s') => (Ret a, s')
    | (Raise e, s') => handler e s'
    end.

Definition get_self : M feed := fun s => (Ret s, s).
Definition modify_self (f : feed -> feed) : M unit := fun s => (Ret tt, f s).
Definition lift {A : Type} (o : outcome A) : M A := fun s => (o, s).
Definition emit (e : effect) : M unit :=
  modify_self (fun s => set_log (log s ++ [e]) s).

(** ** Dictionary and value helpers *)

(** [d.get(k)]: raises [AttributeError] unless [d] is a dictionary. *)
Definition py_get (v : pyval F) (k : string) : outcome (pyval F) :=
  match v with
  | VDict d => Ret (default VNone (d !! k))
  | _ => Raise AttributeError
  end.

(** [d[k]] on a dictionary. *)
Definition getitem (d : dict) (k : string) : outcome (pyval F) :=
  match d !! k with
  | Some v => Ret v
  | None => Raise KeyError
  end.

(** [v == s] for a string [s]. *)
Definition py_eq_str (v : pyval F) (s : string) : bool :=
  match v with
  | VStr s' => String.eqb s' s
  | _ => false
  end.

(** [k in d] *)
Definition py_in (k : string) (d : dict) : bool :=
  match d !! k with
  | Some _ => true
  | None => false
  end.

(** ** [deque(maxlen=n)] *)

(** [append]: the item goes to the right end, then the deque is trimmed
    from the left while it is longer than [maxlen]. *)
Definition deque_append {A : Type} (maxlen : nat) (x : A) (d : list A) : list A :=
  let d' := d ++ [x] in
  if (maxlen <? length d')%nat then tail d' else d'.

(** [popleft]: raises [IndexError] on an empty deque. *)
Definition deque_popleft {A : Type} (d : list A) : outcome (A * list A) :=
  match d with
  | [] => Raise IndexError
  | x :: d' => Ret (x, d')
  end.

(** ** [PubSubDataFeed] *)

Definition initial_lines : lines_t := Lines NaN NaN NaN NaN NaN NaN NaN.

(** [__init__] *)
Definition init (prm : params) : feed :=
  {| p := prm;
     message_queue := [];
     data_buffer := [];
     last_bar := None;
     _streaming_pull_future := None;
     running := false;
     _reconnect_attempts := 0;
     lines := initial_lines;
     log := [] |}.

(** [self.subscriber_client.subscribe(...)]: the client either hands back
    a new future or raises; which of the two is the environment's choice
    [r]. *)
Definition subscribe (r : option future) : M future :=
  match r with
  | Some f => emit (ESubscribe f) ;; mret f
  | None => raise OtherException
  end.

(** [start] *)
Definition start (sub : option future) : M unit :=
  modify_self (set_running true) ;;
  f ← subscribe sub ;
  modify_self (set_future (Some f)) ;;
  emit ESpawnMonitor ;;
  emit ESpawnDrain.

(** [future.cancel()] on the attribute, which is [None] until [start]. *)
Definition future_cancel (fut : option future) : M bool :=
  match fut with
  | Some f => emit (ECancel f) ;; mret true
  | None => raise AttributeError
  end.

(** [stop] *)
Definition stop : M unit :=
  modify_self (set_running false) ;;
  s ← get_self ;
  (if bool_decide (is_Some (_streaming_pull_future s))
   then future_cancel (_streaming_pull_future s) ;; mret tt
   else mret tt) ;;
  emit EClose.

(** [_pubsub_callback] *)
Definition _pubsub_callback (msg : message) : M unit :=
  try_except
    (message_data ← lift (lift_opt (json_loads (msg_data msg))) ;
     sym ← lift (py_get message_data "symbol") ;
     s ← get_self ;
     (if py_eq_str sym (symbol (p s))
      then match message_data with
           | VDict d => modify_self (set_message_queue (message_queue s ++ [d]))
           | _ => raise AttributeError
           end
      else mret tt) ;;
     emit (EAck (msg_id msg)))
    (fun _ => emit (ENack (msg_id msg))).

Definition required_fields : list string :=
  ["symbol"; "timestamp"; "open"; "high"; "low"; "close"; "volume"].

(** [float(message_data[k])] *)
Definition float_item (d : dict) (k : string) : outcome F :=
  v ← getitem d k ; lift_opt (py_float v).

(** [_process_market_data_message]: [None] for a message that is not a
    usable bar, including every exception caught on the way. *)
Definition _process_market_data_message (message_data : dict) : option bar :=
  let body : outcome (option bar) :=
    if negb (py_eq_str (default VNone (message_data !! "type")) "bar")
    then Ret None
    else if negb (forallb (fun field => py_in field message_data) required_fields)
    then Ret None
    else
      timestamp_str ← getitem message_data "timestamp" ;
      dt ← lift_opt (match timestamp_str with
                     | VStr ts => fromisoformat (str_replace "Z" "+00:00" ts)
                     | _ => fromtimestamp timestamp_str
                     end) ;
      o ← float_item message_data "open" ;
      h ← float_item message_data "high" ;
      l ← float_item message_data "low" ;
      c ← float_item message_data "close" ;
      v ← float_item message_data "volume" ;
      close_item ← getitem message_data "close" ;
      vw ← lift_opt (py_float (default close_item (message_data !! "vwap"))) ;
      Ret (Some (Bar dt o h l c v vw))
  in
  match body with
  | Ret r => r
  | Raise _ => None
  end.

(** [self.message_queue.get(timeout=...)] *)
Definition queue_get : M dict :=
  s ← get_self ;
  match message_queue s with
  | [] => raise QueueEmpty
  | m :: q => modify_self (set_message_queue q) ;; mret m
  end.

(** One turn of the [while self.running] loop of
    [_process_message_queue]. *)
Definition drain_iteration : M unit :=
  try_except
    (message_data ← queue_get ;
     match _process_market_data_message message_data with
     | Some bar_data =>
         modify_self (fun s =>
           set_data_buffer
             (deque_append (max_buffer_size (p s)) bar_data (data_buffer s)) s) ;;
         modify_self (set_last_bar (Some bar_data))
     | None => mret tt
     end)
    (fun _ => mret tt).

(** Whether a thread is still inside its loop. *)
Inductive thread_status : Type := Looping | Exited.

(** [_process_message_queue], for at most [n] turns of its loop. *)
Fixpoint _process_message_queue (n : nat) : M thread_status :=
  s ← get_self ;
  if negb (running s) then mret Exited
  else match n with
       | O => mret Looping
       | S n' => drain_iteration ;; _process_message_queue n'
       end.

(** What [future.result(timeout=1.0)] does this time: the environment's
    choice. *)
Inductive poll_result : Type :=
| PollTimeout
| PollReturned
| PollError.

(** [self._streaming_pull_future.result(timeout=1.0)] *)
Definition future_result (fut : option future) (poll : poll_result) : M unit :=
  match fut with
  | None => raise AttributeError
  | Some _ =>
      match poll with
      | PollTimeout => raise TimeoutError
      | PollReturned => mret tt
      | PollError => raise OtherException
      end
  end.

(** [_reconnect]; [resub] is what the new [subscribe] call does. *)
Definition _reconnect (resub : option future) : M unit :=
  modify_self (fun s => set_attempts (_reconnect_attempts s + 1) s) ;;
  s ← get_self ;
  emit (EPrintAttempt (_reconnect_attempts s)) ;;
  emit (ESleep (reconnect_timeout (p s))) ;;
  try_except
    (f ← subscribe resub ;
     modify_self (set_future (Some f)) ;;
     modify_self (set_attempts 0))
    (fun _ => mret tt).

(** One turn of the [while self.running] loop of [_monitor_subscription].
    The result says whether the loop goes on ([true]) or was left through
    [break] ([false]). *)
Definition monitor_iteration (poll : poll_result) (resub : option future) : M bool :=
  s ← get_self ;
  try_except
    (future_result (_streaming_pull_future s) poll ;; mret true)
    (fun e =>
       match e with
       | TimeoutError => mret true
       | _ =>
           s' ← get_self ;
           if running s' && (_reconnect_attempts s' <? max_reconnect_attempts (p s'))
           then _reconnect resub ;; mret true
           else modify_self (set_running false) ;; mret false
       end).

(** [_monitor_subscription], fed the environment's answers for its
    successive turns. *)
Fixpoint _monitor_subscription (evs : list (poll_result * option future))
  : M thread_status :=
  s ← get_self ;
  if negb (running s) then mret Exited
  else match evs with
       | [] => mret Looping
       | (poll, resub) :: evs' =>
           go_on ← monitor_iteration poll resub ;
           if go_on : bool then _monitor_subscription evs' else mret Exited
       end.

(** The three values [_load] returns to backtrader. *)
Inductive load_result : Type :=
| Loaded   (* True *)
| Ended    (* False *)
| Empty.   (* None *)

Definition write_lines (f : lines_t -> lines_t) : M unit :=
  modify_self (fun s => set_lines (f (lines s)) s).

(** [self.data_buffer.popleft()] *)
Definition buffer_popleft : M bar :=
  s ← get_self ;
  r ← lift (deque_popleft (data_buffer s)) ;
  modify_self (set_data_buffer r.2) ;;
  mret r.1.

(** [return None if self.running else False] *)
Definition none_if_running : M load_result :=
  s ← get_self ; mret (if running s then Empty else Ended).

(** [_load] *)
Definition _load : M load_result :=
  s ← get_self ;
  if negb (running s) then mret Ended
  else if bool_decide (data_buffer s = []) then mret Empty
  else
    try_except
      (bar_data ← buffer_popleft ;
       d ← lift (lift_opt (date2num (b_datetime bar_data))) ;
       write_lines (fun l => Lines d (l_open l) (l_high l) (l_low l)
                                   (l_close l) (l_volume l) (l_openinterest l)) ;;
       write_lines (fun l => Lines (l_datetime l) (b_open bar_data) (l_high l) (l_low l)
                                   (l_close l) (l_volume l) (l_openinterest l)) ;;
       write_lines (fun l => Lines (l_datetime l) (l_open l) (b_high bar_data) (l_low l)
                                   (l_close l) (l_volume l) (l_openinterest l)) ;;
       write_lines (fun l => Lines (l_datetime l) (l_open l) (l_high l) (b_low bar_data)
                                   (l_close l) (l_volume l) (l_openinterest l)) ;;
       write_lines (fun l => Lines (l_datetime l) (l_open l) (l_high l) (l_low l)
                                   (b_close bar_data) (l_volume l) (l_openinterest l)) ;;
       write_lines (fun l => Lines (l_datetime l) (l_open l) (l_high l) (l_low l)
                                   (l_close l) (b_volume bar_data) (l_openinterest l)) ;;
       mret Loaded)
      (fun e =>
         match e with
         | IndexError => none_if_running
         | _ => none_if_running
         end).

(** [islive] *)
Definition islive (s : feed) : bool := true.

(** [haslivedata] *)
Definition haslivedata (s : feed) : bool := (0 <? length (data_buffer s))%nat.

(** The dictionary returned by [get_buffer_status]. *)
Record buffer_status : Type := BufferStatus {
  st_symbol : string;
  st_buffer_size : nat;
  st_max_buffer_size : nat;
  st_last_bar_time : option string;
  st_running : bool
}.

(** [get_buffer_status] *)
Definition get_buffer_status (s : feed) : buffer_status :=
  {| st_symbol := symbol (p s);
     st_buffer_size := length (data_buffer s);
     st_max_buffer_size := max_buffer_size (p s);
     st_last_bar_time := (fun b => isoformat (b_datetime b)) <$> last_bar s;
     st_running := running s |}.

End Feed.

(** ** [MultiSymbolPubSubManager]

    Feeds are objects: the manager's dictionary and cerebro's data list
    both hold references to them.  A reference is an index into the store
    of all feed objects created so far. *)

Section Manager.
Context {F datetime : Type} {RT : PyRuntime F datetime}.

Local Abbreviation feed := (@feed F datetime).

(** [d[k] = v] on a Python dictionary kept in insertion order: an existing
    key keeps its place and takes the new value, a new key goes last. *)
Fixpoint dict_set {V : Type} (k : string) (v : V) (d : list (string * V))
  : list (string * V) :=
  match d with
  | [] => [(k, v)]
  | (k', v') :: d' =>
      if String.eqb k' k then (k, v) :: d' else (k', v') :: dict_set k v d'
  end.

(** [d.get(k)] on the same representation. *)
Fixpoint dict_lookup {V : Type} (k : string) (d : list (string * V)) : option V :=
  match d with
  | [] => None
  | (k', v') :: d' => if String.eqb k' k then Some v' else dict_lookup k d'
  end.

(** [d.values()] *)
Definition dict_values {V : Type} (d : list (string * V)) : list V := d.*2.

(** The manager, the cerebro engine it registers feeds with, and the feed
    objects. *)
Record world : Type := World {
  store : list feed;
  mgr_project_id : string;
  data_feeds : list (string * nat);
  cerebro_datas : list nat
}.

(** [MultiSymbolPubSubManager.__init__] (with a cerebro that has no data
    yet). *)
Definition manager_init (project : string) : world :=
  {| store := []; mgr_project_id := project; data_feeds := []; cerebro_datas := [] |}.

(** Run a method on the feed object behind reference [r]. *)
Definition call {A : Type} (r : nat) (m : M A) (w : world) : outcome A * world :=
  match store w !! r with
  | Some s =>
      let '(o, s') := m s in
      (o, World (<[r := s']> (store w)) (mgr_project_id w) (data_feeds w)
                (cerebro_datas w))
  | None => (Raise AttributeError, w)
  end.

(** [add_market_data_feed]; returns the reference to the new feed. *)
Definition add_market_data_feed (sym : string) (timeframe : string) (w : world)
  : nat * world :=
  let subscription := "market-data-" +:+ py_lower sym +:+ "-" +:+ py_lower timeframe in
  let prm :=
    {| project_id := mgr_project_id w;
       subscription_name := subscription;
       symbol := sym;
       name := sym;
       max_buffer_size := max_buffer_size default_params;
       reconnect_timeout := reconnect_timeout default_params;
       max_reconnect_attempts := max_reconnect_attempts default_params |} in
  let data_feed := length (store w) in
  (data_feed,
   {| store := store w ++ [init prm];
      mgr_project_id := mgr_project_id w;
      data_feeds := dict_set sym data_feed (data_feeds w);
      cerebro_datas := cerebro_datas w ++ [data_feed] |}).

(** [add_alternative_data_feed] *)
Definition add_alternative_data_feed (data_type : string) (w : world) : nat * world :=
  let prm :=
    {| project_id := mgr_project_id w;
       subscription_name := "alternative-data-" +:+ data_type;
       symbol := data_type;
       name := "alt-" +:+ data_type;
       max_buffer_size := max_buffer_size default_params;
       reconnect_timeout := reconnect_timeout default_params;
       max_reconnect_attempts := max_reconnect_attempts default_params |} in
  let data_feed := length (store w) in
  (data_feed,
   {| store := store w ++ [init prm];
      mgr_project_id := mgr_project_id w;
      data_feeds := dict_set ("alt-" +:+ data_type) data_feed (data_feeds w);
      cerebro_datas := cerebro_datas w ++ [data_feed] |}).

(** [for feed in feeds: method(feed)]: an exception ends the loop. *)
Fixpoint for_each (method : nat -> M unit) (feeds : list nat) (w : world)
  : outcome unit * world :=
  match feeds with
  | [] => (Ret tt, w)
  | r :: feeds' =>
      match call r (method r) w with
      | (Ret _, w') => for_each method feeds' w'
      | (Raise e, w') => (Raise e, w')
      end
  end.

(** [start_all_feeds]; [sub r] is what [subscribe] does for feed [r]. *)
Definition start_all_feeds (sub : nat -> option future) (w : world)
  : outcome unit * world :=
  for_each (fun r => start (sub r)) (dict_values (data_feeds w)) w.

(** [stop_all_feeds] *)
Definition stop_all_feeds (w : world) : outcome unit * world :=
  for_each (fun _ => stop) (dict_values (data_feeds w)) w.

(** [get_status] *)
Definition get_status (w : world) : list (string * buffer_status) :=
  omap (fun '(sym, r) => (fun s => (sym, get_buffer_status s)) <$> store w !! r)
       (data_feeds w).

End Manager.

(** ** A small runtime for running the model

    Floats are whole numbers and a [datetime] is the whole number it was
    built from; [date2num] hands that number on and never raises, as the
    real one never does on the UTC datetimes [fromtimestamp] builds.  ISO
    strings are not parsed (the messages here carry numeric timestamps),
    strings are lower-cased as ASCII, and the payloads [json.loads]
    understands are listed in a table. *)

Module Demo.

Definition demo_float (v : pyval Z) : option Z :=
  match v with
  | VInt z => Some z
  | VFloat x => Some x
  | VBool b => Some (if b then 1 else 0)
  | _ => None
  end.

Definition demo_fromtimestamp (v : pyval Z) : option Z :=
  match v with
  | VInt z => Some z
  | VFloat x => Some x
  | _ => None
  end.

Definition demo_date2num (dt : Z) : option Z := Some dt.

(** A bar message as the ingester publishes it, with an epoch timestamp. *)
Definition bar_message (sym : string) (ts o h l c v : Z) : gmap string (pyval Z) :=
  list_to_map
    [("type", VStr "bar"); ("symbol", VStr sym); ("timestamp", VInt ts);
     ("open", VInt o); ("high", VInt h); ("low", VInt l); ("close", VInt c);
     ("volume", VInt v)].

(** The same message without its [close] field. *)
Definition bar_message_no_close (sym : string) (ts o h l v : Z)
  : gmap string (pyval Z) :=
  list_to_map
    [("type", VStr "bar"); ("symbol", VStr sym); ("timestamp", VInt ts);
     ("open", VInt o); ("high", VInt h); ("low", VInt l); ("volume", VInt v)].

(** Payloads, named by one byte each. *)
Definition demo_json_loads (data : list Byte.byte) : option (pyval Z) :=
  match data with
  | [Byte.x01] => Some (VDict (bar_message "AAPL" 100 10 10 10 10 1))
  | [Byte.x02] => Some (VDict (bar_message "MSFT" 100 20 20 20 20 1))
  | [Byte.x03] => Some (VDict (bar_message_no_close "AAPL" 100 10 10 10 1))
  | [Byte.x05] => Some (VList [VInt 1; VInt 2])
  | _ => None
  end.

#[export] Instance demo_runtime : PyRuntime Z Z :=
  {| py_float := demo_float;
     fromisoformat := fun _ => None;
     fromtimestamp := demo_fromtimestamp;
     date2num := demo_date2num;
     json_loads := demo_json_loads;
     isoformat := fun _ => "";
     py_lower := str_lower;
     NaN := 0 |}.

Definition aapl_params : params :=
  {| project_id := "farm"; subscription_name := "market-data-aapl-1min";
     symbol := "AAPL"; name := "AAPL";
     max_buffer_size := 1000; reconnect_timeout := 5;
     max_reconnect_attempts := 10 |}.

(** A feed bound to AAPL after [start] succeeded with future 0. *)
Definition aapl_started : feed := (start (Some 0%nat) (init aapl_params)).2.

(** Four bars with closes 10 to 13, queued on a running feed of capacity 3. *)
Definition closes_queue : list (gmap string (pyval Z)) :=
  [bar_message "AAPL" 100 10 10 10 10 1; bar_message "AAPL" 101 11 11 11 11 1;
   bar_message "AAPL" 102 12 12 12 12 1; bar_message "AAPL" 103 13 13 13 13 1].

Definition closes_bars : list bar :=
  [Bar 100 10 10 10 10 1 10; Bar 101 11 11 11 11 1 11;
   Bar 102 12 12 12 12 1 12; Bar 103 13 13 13 13 1 13].

Definition capacity3_feed : feed :=
  set_message_queue closes_queue
    (start (Some 0%nat)
       (init (Params "farm" "market-data-aapl-1min" "AAPL" "AAPL" 3 5 10))).2.

(** A manager with an AAPL and an MSFT feed, none of them started. *)
Definition two_feeds : world :=
  (add_market_data_feed "MSFT" "1Min"
     (add_market_data_feed "AAPL" "1Min" (manager_init "farm")).2).2.

End Demo.

(** ** Statements under test, written out as predicates *)

Section Contracts.
Context {F datetime : Type} {RT : PyRuntime F datetime}.

Local Abbreviation feed := (@feed F datetime).
Local Abbreviation bar := (@bar F datetime).

(** The pull contract in its three-case form: the result of [_load]
    follows from the running flag and the buffer alone. *)
Definition load_contract_three_cases (s : feed) : Prop :=
  (running s = false -> (_load s).1 = Ret Ended) /\
  (running s = true -> data_buffer s = [] -> (_load s).1 = Ret Empty) /\
  (running s = true -> forall b rest, data_buffer s = b :: rest ->
     (_load s).1 = Ret Loaded /\
     data_buffer (_load s).2 = rest /\
     date2num (b_datetime b) = Some (l_datetime (lines (_load s).2))).


(** The retry ceiling read as a count of subscription errors: after as
    many consecutive errors (each followed by a failed re-subscribe) as
    [max_reconnect_attempts], the feed is down and [_load] says so. *)
Definition down_after_max_errors (s : feed) : Prop :=
  let n := Z.to_nat (max_reconnect_attempts (p s)) in
  let r := _monitor_subscription (repeat (PollError, None) n) s in
  running r.2 = false /\ (_load r.2).1 = Ret Ended.

(** Every reference in the manager's dictionary points at a feed object. *)
Definition refs_valid (w : @world F datetime) : Prop :=
  Forall (fun r => (r < length (store w))%nat) (dict_values (data_feeds w)).

(** The last [n] items of a list. *)
Definition last_n {A : Type} (n : nat) (l : list A) : list A :=
  drop (length l - n) l.

(** Replace the [vwap] entry of a bar. *)
Definition with_vwap (v : F) (b : bar) : bar :=
  Bar (b_datetime b) (b_open b) (b_high b) (b_low b) (b_close b) (b_volume b) v.

(** What the rest of the process may do to a feed, one step at a time. *)
Inductive action : Type :=
| ACallback (msg : message)
| ADrain (turns : nat)
| AMonitor (evs : list (poll_result * option future))
| ALoad
| AStop.

Definition step (a : action) (s : feed) : feed :=
  match a with
  | ACallback msg => (_pubsub_callback msg s).2
  | ADrain n => (_process_message_queue n s).2
  | AMonitor evs => (_monitor_subscription evs s).2
  | ALoad => (_load s).2
  | AStop => (stop s).2
  end.

Definition run (acts : list action) (s : feed) : feed :=
  foldl (fun s a => step a s) s acts.

End Contracts.

(** ** Whole runs

    Sequences of the operations above, and the caller in
    [containers/paper-trader/paper_trader.py] that sets the feeds up. *)

Section Runs.
Context {F datetime : Type} {RT : PyRuntime F datetime}.

Local Abbreviation feed := (@feed F datetime).
Local Abbreviation world := (@world F datetime).

(** Everything that can happen to a feed object, [start] included. *)
Inductive op : Type :=
| OStart (sub : option future)
| OStep (a : action).

Definition op_step (o : op) (s : feed) : feed :=
  match o with
  | OStart sub => (start sub s).2
  | OStep a => step a s
  end.

Definition op_run (ops : list op) (s : feed) : feed :=
  foldl (fun s o => op_step o s) s ops.

(** [n] calls of [_load] in a row: the result of each call and the lines
    as that call left them. *)
Fixpoint pull (n : nat) (s : feed) : list (outcome load_result * lines_t) * feed :=
  match n with
  | O => ([], s)
  | S n' =>
      let r := _load s in
      let rest := pull n' r.2 in
      ((r.1, lines r.2) :: rest.1, rest.2)
  end.

(** The broker delivers [msgs] one after the other. *)
Definition deliver (msgs : list message) (s : feed) : feed :=
  foldl (fun s m => (_pubsub_callback m s).2) s msgs.

(** The feeds a caller asks the manager for. *)
Inductive add_op : Type :=
| AddMarket (sym timeframe : string)
| AddAlternative (data_type : string).

Definition add_step (o : add_op) (w : world) : world :=
  match o with
  | AddMarket sym tf => (add_market_data_feed sym tf w).2
  | AddAlternative t => (add_alternative_data_feed t w).2
  end.

Definition add_run (ops : list add_op) (w : world) : world :=
  foldl (fun w o => add_step o w) w ops.



(** The keys of a dictionary, in order. *)
Definition dict_keys {V : Type} (d : list (string * V)) : list string := d.*1.

(** The buffer respects its capacity and, when it is not empty, its newest
    bar is the last-bar snapshot. *)
Definition feed_inv (s : feed) : Prop :=
  (length (data_buffer s) <= max_buffer_size (p s))%nat /\
  (data_buffer s <> [] -> last (data_buffer s) = last_bar s).

(** What holds of a manager that only had feeds added: its references are
    valid, no key and no feed occurs twice in its dictionary, cerebro holds
    every feed object in creation order, and every feed is as constructed,
    for the manager's project and with the default parameters. *)
Definition manager_inv (project : string) (w : world) : Prop :=
  refs_valid w /\
  NoDup (dict_keys (data_feeds w)) /\
  NoDup (dict_values (data_feeds w)) /\
  cerebro_datas w = seq 0 (length (store w)) /\
  mgr_project_id w = project /\
  Forall (fun s => exists prm,
            s = init prm /\ project_id prm = project /\
            max_buffer_size prm = 1000%nat /\ reconnect_timeout prm = 5 /\
            max_reconnect_attempts prm = 10)
         (store w).

End Runs.

(** ** Runs on the small runtime *)

Module DemoRuns.
Import Demo.

(** A feed is started, receives one AAPL bar and drains it. *)
Definition one_bar_life : list op :=
  [OStart (Some 0%nat); OStep (ACallback (Message 7 [Byte.x01])); OStep (ADrain 1)].

(** The capacity-3 feed after its four queued bars were drained. *)
Definition capacity3_drained : feed := (_process_message_queue 4 capacity3_feed).2.

Definition last3_bars : list bar :=
  [Bar 101 11 11 11 11 1 11; Bar 102 12 12 12 12 1 12; Bar 103 13 13 13 13 1 13].

(** The same AAPL bar delivered twice. *)
Definition two_deliveries : list message :=
  [Message 7 [Byte.x01]; Message 8 [Byte.x01]].

(** [subscribe] raises for feed 0 and returns a future for the others. *)
Definition first_fails (r : nat) : option future :=
  if (r =? 0)%nat then None else Some r.


End DemoRuns.

(** ** A runtime with real timestamps

    Here a [datetime] is what Python's is: a wall-clock reading between
    [datetime.min] and [datetime.max], with or without a UTC offset.
    [fromisoformat] reads the strings [isoformat] writes (a date, then
    optionally a separator, a time of hours, minutes, seconds and a
    fraction of 3 or 6 digits, and a signed offset) and refuses the rest,
    [fromtimestamp] builds UTC datetimes, and
    [date2num] does what backtrader's does: it subtracts the UTC offset,
    which raises [OverflowError] when the result leaves the range, and
    returns the proleptic Gregorian ordinal plus the fraction of the day.
    A float is held exactly (rounding to 53 bits is not modelled), strings
    are lower-cased as ASCII, [float] reads plain decimal strings only, and
    the payloads [json.loads] understands are listed in a table. *)

Module Calendar.

(** A Python float. *)
Inductive pyfloat : Type :=
| Finite (q : Q)
| Infinite (negative : bool)
| NotANumber.

(** [wall]: microseconds on the wall clock since 0001-01-01T00:00:00;
    [utcoffset]: the offset of the [tzinfo] in microseconds, if there is
    one. *)
Record pydatetime : Type := PyDateTime {
  wall : Z;
  utcoffset : option Z
}.

Definition us_per_day : Z := 86400000000.

(** One microsecond past [datetime.max], the end of day 3652059. *)
Definition wall_end : Z := 3652059 * us_per_day.

Definition in_range (w : Z) : bool := (0 <=? w) && (w <? wall_end).

Definition is_leap (y : Z) : bool :=
  (y mod 4 =? 0) && (negb (y mod 100 =? 0) || (y mod 400 =? 0)).

Definition days_before_year (y : Z) : Z :=
  (y - 1) * 365 + (y - 1) / 4 - (y - 1) / 100 + (y - 1) / 400.

Definition days_in_month (y m : Z) : Z :=
  if m =? 2 then (if is_leap y then 29 else 28)
  else if (m =? 4) || (m =? 6) || (m =? 9) || (m =? 11) then 30
  else 31.

Definition days_before_month (y m : Z) : Z :=
  foldr Z.add 0 (days_in_month y <$> seqZ 1 (m - 1)).

(** [date(y, m, d).toordinal()]: 0001-01-01 is day 1. *)
Definition toordinal (y m d : Z) : Z :=
  days_before_year y + days_before_month y m + d.

(** [date.fromordinal(n)] as year, month, day. *)
Definition civil (n : Z) : Z * Z * Z :=
  let z := n + 305 in
  let era := z / 146097 in
  let doe := z - era * 146097 in
  let yoe := (doe - doe / 1460 + doe / 36524 - doe / 146096) / 365 in
  let doy := doe - (365 * yoe + yoe / 4 - yoe / 100) in
  let mp := (5 * doy + 2) / 153 in
  let d := doy - (153 * mp + 2) / 5 + 1 in
  let m := if mp <? 10 then mp + 3 else mp - 9 in
  let y := yoe + era * 400 + (if m <=? 2 then 1 else 0) in
  (y, m, d).

Definition digit (c : ascii) : option Z :=
  let n := Z.of_nat (nat_of_ascii c) in
  if (48 <=? n) && (n <=? 57) then Some (n - 48) else None.

(** Exactly [width] decimal digits, then the rest of the string. *)
Fixpoint digits (width : nat) (acc : Z) (s : string) : option (Z * string) :=
  match width with
  | O => Some (acc, s)
  | S w =>
      match s with
      | String c r => d ← digit c; digits w (10 * acc + d) r
      | EmptyString => None
      end
  end.

(** [.fff] or [.ffffff], in microseconds. *)
Definition fraction (s : string) : option Z :=
  match String.length s with
  | 3%nat => r ← digits 3 0 s; Some (r.1 * 1000)
  | 6%nat => r ← digits 6 0 s; Some r.1
  | _ => None
  end.

(** [HH[:MM[:SS[.fff[fff]]]]]: the fields read and the microseconds. *)
Fixpoint hh_mm_ss_ff (fields : nat) (s : string) : option (list Z * Z) :=
  match fields with
  | O => None
  | S n =>
      r ← digits 2 0 s;
      match r.2 with
      | EmptyString => Some ([r.1], 0)
      | String "." f => us ← fraction f; Some ([r.1], us)
      | String ":" rest => r' ← hh_mm_ss_ff n rest; Some (r.1 :: r'.1, r'.2)
      | _ => None
      end
  end.

Definition seconds_of (fields : list Z) : Z :=
  match fields with
  | [h] => h * 3600
  | [h; m] => h * 3600 + m * 60
  | [h; m; s] => h * 3600 + m * 60 + s
  | _ => 0
  end.

Definition valid_clock (fields : list Z) : bool :=
  match fields with
  | [h] => h <? 24
  | [h; m] => (h <? 24) && (m <? 60)
  | [h; m; s] => (h <? 24) && (m <? 60) && (s <? 60)
  | _ => false
  end.

(** The time string up to its first sign, and what follows the sign. *)
Fixpoint split_offset (s : string) : string * option (bool * string) :=
  match s with
  | EmptyString => (EmptyString, None)
  | String c r =>
      if Ascii.eqb c "+" then (EmptyString, Some (false, r))
      else if Ascii.eqb c "-" then (EmptyString, Some (true, r))
      else let p := split_offset r in (String c p.1, p.2)
  end.

(** [HH:MM], [HH:MM:SS] or [HH:MM:SS.ffffff] after the sign; [timezone]
    refuses an offset of a day or more. *)
Definition parse_offset (negative : bool) (s : string) : option Z :=
  match String.length s with
  | 5%nat | 8%nat | 15%nat =>
      r ← hh_mm_ss_ff 3 s;
      let us := seconds_of r.1 * 1000000 + r.2 in
      let off := if negative : bool then - us else us in
      if (- us_per_day <? off) && (off <? us_per_day) then Some off else None
  | _ => None
  end.

(** [YYYY-MM-DD]: the ordinal of a valid date and the rest of the string. *)
Definition parse_date (s : string) : option (Z * string) :=
  y ← digits 4 0 s;
  match y.2 with
  | String "-" s1 =>
      m ← digits 2 0 s1;
      match m.2 with
      | String "-" s2 =>
          d ← digits 2 0 s2;
          if (1 <=? y.1) && (1 <=? m.1) && (m.1 <=? 12) && (1 <=? d.1)
             && (d.1 <=? days_in_month y.1 m.1)
          then Some (toordinal y.1 m.1 d.1, d.2)
          else None
      | _ => None
      end
  | _ => None
  end.

(** [datetime.fromisoformat] *)
Definition cal_fromisoformat (s : string) : option pydatetime :=
  date ← parse_date s;
  match date.2 with
  | EmptyString => Some (PyDateTime ((date.1 - 1) * us_per_day) None)
  | String _ t =>
      let p := split_offset t in
      clock ← hh_mm_ss_ff 3 p.1;
      if valid_clock clock.1 then
        let w := (date.1 - 1) * us_per_day + seconds_of clock.1 * 1000000 + clock.2 in
        match p.2 with
        | None => Some (PyDateTime w None)
        | Some (negative, tz) =>
            off ← parse_offset negative tz; Some (PyDateTime w (Some off))
        end
      else None
  end.

Definition round_half_even (q : Q) : Z :=
  let n := Qnum q in
  let d := Z.pos (Qden q) in
  let fl := n / d in
  let r := 2 * (n mod d) in
  if r <? d then fl
  else if d <? r then fl + 1
  else if Z.even fl then fl else fl + 1.

(** 1970-01-01T00:00:00 on the wall clock. *)
Definition epoch_wall : Z := (toordinal 1970 1 1 - 1) * us_per_day.

Definition utc_from_us (us : Z) : option pydatetime :=
  let w := epoch_wall + us in
  if in_range w then Some (PyDateTime w (Some 0)) else None.

(** [datetime.fromtimestamp(x, tz=timezone.utc)] *)
Definition cal_fromtimestamp (v : pyval pyfloat) : option pydatetime :=
  match v with
  | VInt z => utc_from_us (z * 1000000)
  | VBool b => utc_from_us (if b then 1000000 else 0)
  | VFloat (Finite q) => utc_from_us (round_half_even (Qmult q (Qmake 1000000 1)))
  | _ => None
  end.

(** [bt.date2num]: [dt -= dt.tzinfo.utcoffset(dt)] for an aware datetime,
    then the ordinal plus the fraction of the day. *)
Definition cal_date2num (dt : pydatetime) : option pyfloat :=
  let w := match utcoffset dt with
           | Some off => wall dt - off
           | None => wall dt
           end in
  if in_range w
  then Some (Finite (Qred (Qmake (us_per_day + w) (Z.to_pos us_per_day))))
  else None.

(** [n] written with [width] digits. *)
Fixpoint zero_padded (width : nat) (n : Z) : string :=
  match width with
  | O => EmptyString
  | S w =>
      zero_padded w (n / 10)
      +:+ String (ascii_of_nat (Z.to_nat (48 + n mod 10))) EmptyString
  end.

(** [HH:MM], then [:SS] and [.ffffff] as asked for or needed. *)
Definition clock_text (us : Z) (seconds : bool) : string :=
  let s := us / 1000000 in
  let f := us mod 1000000 in
  zero_padded 2 (s / 3600) +:+ ":" +:+ zero_padded 2 (s / 60 mod 60)
  +:+ (if seconds || negb (s mod 60 =? 0) || negb (f =? 0)
       then ":" +:+ zero_padded 2 (s mod 60) else "")
  +:+ (if f =? 0 then "" else "." +:+ zero_padded 6 f).

(** [dt.isoformat()] *)
Definition cal_isoformat (dt : pydatetime) : string :=
  let '(y, m, d) := civil (wall dt / us_per_day + 1) in
  zero_padded 4 y +:+ "-" +:+ zero_padded 2 m +:+ "-" +:+ zero_padded 2 d
  +:+ "T" +:+ clock_text (wall dt mod us_per_day) true
  +:+ match utcoffset dt with
      | None => ""
      | Some off =>
          (if off <? 0 then "-" else "+") +:+ clock_text (Z.abs off) false
      end.

(** A run of decimal digits: its value, its length, and the rest. *)
Fixpoint digit_run (s : string) (acc : Z) (len : nat) : Z * nat * string :=
  match s with
  | EmptyString => (acc, len, s)
  | String c r =>
      match digit c with
      | Some d => digit_run r (10 * acc + d) (S len)
      | None => (acc, len, s)
      end
  end.

(** [float] of a string: digits with an optional sign and an optional
    fractional part. *)
Definition decimal (s : string) : option pyfloat :=
  let '(negative, body) :=
    match s with
    | String "-" r => (true, r)
    | String "+" r => (false, r)
    | _ => (false, s)
    end in
  let '(whole, n, rest) := digit_run body 0 0 in
  match n with
  | O => None
  | S _ =>
      let value (q : Q) := Some (Finite (Qred (if negative : bool then Qopp q else q))) in
      match rest with
      | EmptyString => value (inject_Z whole)
      | String "." f =>
          let '(part, k, rest') := digit_run f 0 0 in
          match rest' with
          | EmptyString =>
              value (Qmake (whole * 10 ^ Z.of_nat k + part) (Z.to_pos (10 ^ Z.of_nat k)))
          | _ => None
          end
      | _ => None
      end
  end.

(** [float(x)]; an integer beyond the range of a double overflows. *)
Definition cal_float (v : pyval pyfloat) : option pyfloat :=
  match v with
  | VInt z => if Z.abs z <? 2 ^ 1024 then Some (Finite (inject_Z z)) else None
  | VFloat x => Some x
  | VBool b => Some (Finite (inject_Z (if b then 1 else 0)))
  | VStr s => decimal s
  | _ => None
  end.

(** A bar message as the ingester publishes it. *)
Definition bar_message (sym : string) (ts : pyval pyfloat) (o h l c v : Z)
  : gmap string (pyval pyfloat) :=
  list_to_map
    [("type", VStr "bar"); ("symbol", VStr sym); ("timestamp", ts);
     ("open", VInt o); ("high", VInt h); ("low", VInt l); ("close", VInt c);
     ("volume", VInt v)].

(** The first instant of the calendar, written in a zone one hour ahead
    of UTC. *)
Definition year1_message : gmap string (pyval pyfloat) :=
  bar_message "AAPL" (VStr "0001-01-01T00:00:00+01:00") 10 10 10 10 1.

(** The start of the Unix epoch, as a number. *)
Definition epoch_message : gmap string (pyval pyfloat) :=
  bar_message "AAPL" (VInt 0) 10 10 10 10 1.

(** The timestamp of the module's own docstring. *)
Definition docstring_message : gmap string (pyval pyfloat) :=
  bar_message "AAPL" (VStr "2023-04-09T10:24:31.123456Z") 10 10 10 10 1.

(** Payloads, named by one byte each. *)
Definition cal_json_loads (data : list Byte.byte) : option (pyval pyfloat) :=
  match data with
  | [Byte.x01] => Some (VDict year1_message)
  | [Byte.x02] => Some (VDict epoch_message)
  | [Byte.x03] => Some (VDict docstring_message)
  | _ => None
  end.

#[export] Instance calendar_runtime : PyRuntime pyfloat pydatetime :=
  {| py_float := cal_float;
     fromisoformat := cal_fromisoformat;
     fromtimestamp := cal_fromtimestamp;
     date2num := cal_date2num;
     json_loads := cal_json_loads;
     isoformat := cal_isoformat;
     py_lower := str_lower;
     NaN := NotANumber |}.

(** A feed bound to AAPL after [start] succeeded with future 0. *)
Definition aapl_started : feed := (start (Some 0%nat) (init Demo.aapl_params)).2.

(** That feed after the year-1 message was delivered and drained. *)
Definition year1_buffered : feed :=
  (drain_iteration (_pubsub_callback (Message 7 [Byte.x01]) aapl_started).2).2.

(** The bar that message becomes: [fromisoformat] accepts the timestamp. *)
Definition year1_bar : bar :=
  Bar (PyDateTime 0 (Some 3600000000))
      (Finite (inject_Z 10)) (Finite (inject_Z 10)) (Finite (inject_Z 10))
      (Finite (inject_Z 10)) (Finite (inject_Z 1)) (Finite (inject_Z 10)).

(** The same feed after the epoch message instead. *)
Definition epoch_buffered : feed :=
  (drain_iteration (_pubsub_callback (Message 8 [Byte.x02]) aapl_started).2).2.

End Calendar.

(** * Properties *)

Section Properties.
Context {F datetime : Type} {RT : PyRuntime F datetime}.

Local Abbreviation feed := (@feed F datetime).
Local Abbreviation bar := (@bar F datetime).
Local Abbreviation world := (@world F datetime).
Local Abbreviation dict := (gmap string (pyval F)).

Ltac run_monad :=
  cbv [mbind mret M_mbind M_mret M_bind M_ret try_except get_self modify_self
       lift raise emit outcome_mbind outcome_mret outcome_bind lift_opt] in *.

(** *** [_load] *)

Lemma load_stopped (s : feed) :
  running s = false -> _load s = (Ret Ended, s).
Proof.
  intros Hr. unfold _load. run_monad. rewrite Hr. reflexivity.
Qed.

Lemma load_empty (s : feed) :
  running s = true -> data_buffer s = [] -> _load s = (Ret Empty, s).
Proof.
  intros Hr Hb. unfold _load. run_monad. rewrite Hr, Hb. reflexivity.
Qed.

Lemma load_bar (s : feed) (b : bar) (rest : list bar) (d : F) :
  running s = true -> data_buffer s = b :: rest ->
  date2num (b_datetime b) = Some d ->
  _load s =
    (Ret Loaded,
     set_lines (Lines d (b_open b) (b_high b) (b_low b) (b_close b) (b_volume b)
                      (l_openinterest (lines s)))
               (set_data_buffer rest s)).
Proof.
  intros Hr Hb Hd. destruct s; cbn in Hr, Hb; subst.
  unfold _load, buffer_popleft, write_lines. run_monad. cbn.
  rewrite Hd. reflexivity.
Qed.

Lemma load_bar_unconvertible (s : feed) (b : bar) (rest : list bar) :
  running s = true -> data_buffer s = b :: rest ->
  date2num (b_datetime b) = None ->
  _load s = (Ret Empty, set_data_buffer rest s).
Proof.
  intros Hr Hb Hd. destruct s; cbn in Hr, Hb; subst.
  unfold _load, buffer_popleft, write_lines, none_if_running. run_monad. cbn.
  rewrite Hd. reflexivity.
Qed.

(** [_load], case by case. *)
Lemma load_cases (s : feed) :
  _load s =
    if running s then
      match data_buffer s with
      | [] => (Ret Empty, s)
      | b :: rest =>
          match date2num (b_datetime b) with
          | Some d =>
              (Ret Loaded,
               set_lines (Lines d (b_open b) (b_high b) (b_low b) (b_close b)
                                (b_volume b) (l_openinterest (lines s)))
                         (set_data_buffer rest s))
          | None => (Ret Empty, set_data_buffer rest s)
          end
      end
    else (Ret Ended, s).
Proof.
  destruct (running s) eqn:Hr.
  - destruct (data_buffer s) as [|b rest] eqn:Hb.
    + now apply load_empty.
    + destruct (date2num (b_datetime b)) as [d|] eqn:Hd.
      * now apply (load_bar s b rest d).
      * now apply (load_bar_unconvertible s b rest).
  - now apply load_stopped.
Qed.

(** C1 (amended): the result of [_load] is determined by the running flag,
    the buffer and whether the oldest bar's timestamp converts.  Not
    running: [Ended], whatever the buffer holds, and nothing changes.
    Running with an empty buffer: [Empty], and nothing changes.  Running
    with a non-empty buffer: the oldest bar is removed; if [date2num]
    accepts its timestamp the result is [Loaded] and the datetime, open,
    high, low, close and volume lines hold that bar, and if the conversion
    raises the bar is skipped and the result is [Empty]. *)
Theorem load_by_flag_buffer_conversion (s : feed) :
  (running s = false -> _load s = (Ret Ended, s)) /\
  (running s = true -> data_buffer s = [] -> _load s = (Ret Empty, s)) /\
  (forall b rest,
     running s = true -> data_buffer s = b :: rest ->
     match date2num (b_datetime b) with
     | Some d =>
         _load s =
           (Ret Loaded,
            set_lines (Lines d (b_open b) (b_high b) (b_low b) (b_close b)
                             (b_volume b) (l_openinterest (lines s)))
                      (set_data_buffer rest s))
     | None => _load s = (Ret Empty, set_data_buffer rest s)
     end).
Proof.
  split; [apply load_stopped|]. split; [apply load_empty|].
  intros b rest Hr Hb.
  destruct (date2num (b_datetime b)) as [d|] eqn:Hd.
  - now apply (load_bar s b rest d).
  - now apply (load_bar_unconvertible s b rest).
Qed.

(** C2: [_load] returns one of its three results in every state; the
    exceptions raised inside its [try] block never leave it. *)
Theorem load_never_raises (s : feed) :
  exists r : load_result, (_load s).1 = Ret r.
Proof.
  rewrite load_cases.
  destruct (running s); [|eauto].
  destruct (data_buffer s) as [|b rest]; [eauto|].
  destruct (date2num (b_datetime b)); eauto.
Qed.

(** *** The ring buffer *)

Lemma tail_drop {A : Type} (k : nat) (l : list A) : tail (drop k l) = drop (S k) l.
Proof.
  revert l. induction k as [|k IH]; intros [|x l]; cbn; try reflexivity.
  apply IH.
Qed.

Lemma last_n_short {A : Type} (n : nat) (l : list A) :
  (length l <= n)%nat -> last_n n l = l.
Proof.
  intros H. unfold last_n. replace (length l - n)%nat with 0%nat by lia.
  apply drop_0.
Qed.

Lemma length_last_n {A : Type} (n : nat) (l : list A) :
  (length (last_n n l) <= n)%nat.
Proof. unfold last_n. rewrite length_drop. lia. Qed.

(** Appending to a deque that holds the last [n] items of a history gives
    the last [n] items of the longer history. *)
Lemma deque_append_last_n {A : Type} (n : nat) (x : A) (l : list A) :
  deque_append n x (last_n n l) = last_n n (l ++ [x]).
Proof.
  unfold deque_append, last_n.
  rewrite !length_app, length_drop. cbn [length].
  destruct (n <? _)%nat eqn:Hlt.
  - apply Nat.ltb_lt in Hlt.
    rewrite <- (drop_app_le l [x]) by lia.
    rewrite tail_drop. f_equal. lia.
  - apply Nat.ltb_ge in Hlt.
    rewrite <- (drop_app_le l [x]) by lia.
    f_equal. lia.
Qed.

Lemma drain_iteration_bar (s : feed) (m : dict) (q : list dict) (b : bar) :
  message_queue s = m :: q ->
  _process_market_data_message m = Some b ->
  drain_iteration s =
    (Ret tt,
     set_last_bar (Some b)
       (set_data_buffer (deque_append (max_buffer_size (p s)) b (data_buffer s))
          (set_message_queue q s))).
Proof.
  intros Hq Hb. destruct s; cbn in Hq; subst.
  unfold drain_iteration, queue_get. run_monad. cbn. rewrite Hb. reflexivity.
Qed.

Lemma drain_iteration_rejected (s : feed) (m : dict) (q : list dict) :
  message_queue s = m :: q ->
  _process_market_data_message m = None ->
  drain_iteration s = (Ret tt, set_message_queue q s).
Proof.
  intros Hq Hb. destruct s; cbn in Hq; subst.
  unfold drain_iteration, queue_get. run_monad. cbn. rewrite Hb. reflexivity.
Qed.

Lemma drain_iteration_idle (s : feed) :
  message_queue s = [] -> drain_iteration s = (Ret tt, s).
Proof.
  intros Hq. destruct s; cbn in Hq; subst. reflexivity.
Qed.

Lemma process_message_queue_unfold (n : nat) (s : feed) :
  _process_message_queue n s =
    if running s then
      match n with
      | O => (Ret Looping, s)
      | S n' => _process_message_queue n' (drain_iteration s).2
      end
    else (Ret Exited, s).
Proof.
  destruct n; cbn [_process_message_queue]; run_monad;
    destruct (running s); cbn; try reflexivity.
  destruct (drain_iteration s) as [[[]|e] s'] eqn:Hd; [reflexivity|].
  exfalso. revert Hd. unfold drain_iteration. run_monad.
  destruct (queue_get s) as [[m|e'] s'']; [|discriminate].
  destruct (_process_market_data_message m); discriminate.
Qed.

Lemma drain_history (k : nat) :
  forall (s : feed) (bars : list bar) (hist : list bar),
    running s = true ->
    Forall2 (fun m b => _process_market_data_message m = Some b)
            (message_queue s) bars ->
    data_buffer s = last_n (max_buffer_size (p s)) hist ->
    data_buffer (_process_message_queue k s).2 =
      last_n (max_buffer_size (p s)) (hist ++ take k bars).
Proof.
  induction k as [|k IH]; intros s bars hist Hr Hv Hb;
    rewrite process_message_queue_unfold, Hr.
  - cbn. now rewrite app_nil_r.
  - inversion Hv as [Hq Hbars | m b q bars' Hm Hv' Hq Hbars]; symmetry in Hq.
    + rewrite (drain_iteration_idle s) by assumption. cbn [snd].
      rewrite (IH s [] hist); auto.
      * now rewrite !take_nil.
      * rewrite Hq. constructor.
    + rewrite (drain_iteration_bar s m q b) by assumption. cbn [snd].
      rewrite (IH _ bars' (hist ++ [b])).
      * cbn. now rewrite <- app_assoc.
      * destruct s; assumption.
      * destruct s; cbn in *. assumption.
      * destruct s; cbn in *. rewrite Hb. apply deque_append_last_n.
Qed.

(** C3: draining valid messages into the buffer, turn after turn, never
    lets it grow past [max_buffer_size] (1000 unless configured), and what
    it holds after any number of turns is exactly the most recent
    [max_buffer_size] bars delivered so far, oldest first. *)
Theorem ring_buffer_keeps_most_recent
    (s : feed) (msgs : list dict) (bars : list bar) (k : nat) :
  running s = true ->
  message_queue s = msgs ->
  Forall2 (fun m b => _process_market_data_message m = Some b) msgs bars ->
  (length (data_buffer s) <= max_buffer_size (p s))%nat ->
  data_buffer (_process_message_queue k s).2 =
    last_n (max_buffer_size (p s)) (data_buffer s ++ take k bars) /\
  (length (data_buffer (_process_message_queue k s).2) <= max_buffer_size (p s))%nat /\
  max_buffer_size default_params = 1000%nat.
Proof.
  intros Hr Hq Hv Hlen. subst msgs.
  assert (H : data_buffer (_process_message_queue k s).2 =
              last_n (max_buffer_size (p s)) (data_buffer s ++ take k bars)).
  { apply drain_history; auto. now rewrite last_n_short. }
  split; [exact H|]. split; [|reflexivity].
  rewrite H. apply length_last_n.
Qed.

(** *** The push callback *)

Lemma callback_object (s : feed) (msg : message) (d : dict) :
  json_loads (msg_data msg) = Some (VDict d) ->
  _pubsub_callback msg s =
    (Ret tt,
     if py_eq_str (default VNone (d !! "symbol")) (symbol (p s))
     then set_log (log s ++ [EAck (msg_id msg)])
            (set_message_queue (message_queue s ++ [d]) s)
     else set_log (log s ++ [EAck (msg_id msg)]) s).
Proof.
  intros Hj. unfold _pubsub_callback, py_get. run_monad. rewrite Hj.
  destruct (py_eq_str _ _); reflexivity.
Qed.

Lemma callback_undecodable (s : feed) (msg : message) :
  json_loads (msg_data msg) = None ->
  _pubsub_callback msg s = (Ret tt, set_log (log s ++ [ENack (msg_id msg)]) s).
Proof.
  intros Hj. unfold _pubsub_callback. run_monad. rewrite Hj. reflexivity.
Qed.

Lemma callback_not_object (s : feed) (msg : message) (v : pyval F) :
  json_loads (msg_data msg) = Some v ->
  (forall d, v <> VDict d) ->
  _pubsub_callback msg s = (Ret tt, set_log (log s ++ [ENack (msg_id msg)]) s).
Proof.
  intros Hj Hv. unfold _pubsub_callback, py_get. run_monad. rewrite Hj.
  destruct v; try reflexivity. now destruct (Hv d).
Qed.




(** C5: a message for another symbol is acknowledged and dropped: the
    callback returns normally and the only thing that changes is the
    acknowledgement in the effect log; the queue and the buffer are as
    before. *)
Theorem other_symbol_acked_and_dropped
    (s : feed) (msg : message) (d : dict) (sym : string) :
  json_loads (msg_data msg) = Some (VDict d) ->
  d !! "symbol" = Some (VStr sym) ->
  sym <> symbol (p s) ->
  _pubsub_callback msg s = (Ret tt, set_log (log s ++ [EAck (msg_id msg)]) s) /\
  message_queue (_pubsub_callback msg s).2 = message_queue s /\
  data_buffer (_pubsub_callback msg s).2 = data_buffer s /\
  length (data_buffer (_pubsub_callback msg s).2) = length (data_buffer s).
Proof.
  intros Hj Hs Hne. rewrite (callback_object s msg d Hj), Hs. cbn.
  apply String.eqb_neq in Hne. rewrite Hne. repeat split.
Qed.

(** *** The reconnection monitor *)

Lemma monitor_iteration_quiet (s : feed) (f0 : future) (poll : poll_result) :
  _streaming_pull_future s = Some f0 ->
  poll <> PollError ->
  monitor_iteration poll None s = (Ret true, s) /\
  forall resub, monitor_iteration poll resub s = (Ret true, s).
Proof.
  intros Hf Hp. split; [|intros resub];
    unfold monitor_iteration, future_result; run_monad; rewrite Hf;
    destruct poll; try reflexivity; congruence.
Qed.

Lemma monitor_iteration_resubscribed (s : feed) (f : future) :
  running s = true ->
  _reconnect_attempts s < max_reconnect_attempts (p s) ->
  monitor_iteration PollError (Some f) s =
    (Ret true,
     Feed (p s) (message_queue s) (data_buffer s) (last_bar s) (Some f) true 0
          (lines s)
          (log s ++ [EPrintAttempt (_reconnect_attempts s + 1)]
                 ++ [ESleep (reconnect_timeout (p s))] ++ [ESubscribe f])).
Proof.
  intros Hr Hlt. apply Z.ltb_lt in Hlt.
  destruct s as [prm q b lb fut r a ln lg]; cbn in Hr, Hlt; subst r.
  unfold monitor_iteration, future_result, _reconnect, subscribe. run_monad.
  destruct fut; cbn; rewrite Hlt; cbn; unfold set_log, set_attempts, set_future;
    cbn; rewrite <- !app_assoc; reflexivity.
Qed.

Lemma monitor_iteration_retry_failed (s : feed) :
  running s = true ->
  _reconnect_attempts s < max_reconnect_attempts (p s) ->
  monitor_iteration PollError None s =
    (Ret true,
     Feed (p s) (message_queue s) (data_buffer s) (last_bar s)
          (_streaming_pull_future s) true (_reconnect_attempts s + 1) (lines s)
          (log s ++ [EPrintAttempt (_reconnect_attempts s + 1)]
                 ++ [ESleep (reconnect_timeout (p s))])).
Proof.
  intros Hr Hlt. apply Z.ltb_lt in Hlt.
  destruct s as [prm q b lb fut r a ln lg]; cbn in Hr, Hlt; subst r.
  unfold monitor_iteration, future_result, _reconnect, subscribe. run_monad.
  destruct fut; cbn; rewrite Hlt; cbn; unfold set_log, set_attempts;
    cbn; rewrite <- !app_assoc; reflexivity.
Qed.

Lemma monitor_iteration_exhausted (s : feed) (resub : option future) :
  max_reconnect_attempts (p s) <= _reconnect_attempts s ->
  monitor_iteration PollError resub s = (Ret false, set_running false s).
Proof.
  intros Hge. apply Z.ltb_ge in Hge.
  destruct s as [prm q b lb fut r a ln lg]; cbn in Hge.
  unfold monitor_iteration, future_result. run_monad.
  destruct fut; cbn; rewrite Hge, andb_false_r; reflexivity.
Qed.

Lemma monitor_subscription_unfold
    (evs : list (poll_result * option future)) (s : feed) :
  _monitor_subscription evs s =
    if running s then
      match evs with
      | [] => (Ret Looping, s)
      | (poll, resub) :: evs' =>
          match monitor_iteration poll resub s with
          | (Ret true, s') => _monitor_subscription evs' s'
          | (Ret false, s') => (Ret Exited, s')
          | (Raise e, s') => (Raise e, s')
          end
      end
    else (Ret Exited, s).
Proof.
  destruct evs as [|[poll resub] evs']; cbn [_monitor_subscription]; run_monad;
    destruct (running s); cbn; try reflexivity.
  destruct (monitor_iteration poll resub s) as [[[]|e] s']; reflexivity.
Qed.

(** [k] subscription errors in a row, each followed by a re-subscribe that
    raises, while the attempt counter has room for them. *)
Lemma monitor_failed_retries (k : nat) :
  forall (s : feed) (rest : list (poll_result * option future)),
    running s = true ->
    _reconnect_attempts s + Z.of_nat k <= max_reconnect_attempts (p s) ->
    exists s',
      _monitor_subscription (repeat (PollError, None) k ++ rest) s =
        _monitor_subscription rest s' /\
      running s' = true /\
      p s' = p s /\
      data_buffer s' = data_buffer s /\
      _reconnect_attempts s' = _reconnect_attempts s + Z.of_nat k.
Proof.
  induction k as [|k IH]; intros s rest Hr Hroom.
  - exists s. cbn. repeat split; auto. lia.
  - cbn [repeat app]. rewrite monitor_subscription_unfold, Hr.
    rewrite monitor_iteration_retry_failed by (auto; lia).
    set (s1 := Feed _ _ _ _ _ _ _ _ _).
    destruct (IH s1 rest) as (s' & Hrun & Hr' & Hp' & Hb' & Ha').
    + reflexivity.
    + subst s1. cbn. lia.
    + exists s'. rewrite Hrun. subst s1. cbn in *. repeat split; auto. lia.
Qed.

(** *** Once the running flag is down *)

Lemma callback_running (s : feed) (msg : message) :
  running (_pubsub_callback msg s).2 = running s.
Proof.
  destruct (json_loads (msg_data msg)) as [v|] eqn:Hj.
  - destruct v;
      try (rewrite (callback_not_object s msg _ Hj) by discriminate; reflexivity).
    rewrite (callback_object s msg d Hj). destruct (py_eq_str _ _); reflexivity.
  - rewrite (callback_undecodable s msg Hj). reflexivity.
Qed.

Lemma stop_result (s : feed) :
  stop s =
    (Ret tt,
     Feed (p s) (message_queue s) (data_buffer s) (last_bar s)
          (_streaming_pull_future s) false (_reconnect_attempts s) (lines s)
          (log s ++ match _streaming_pull_future s with
                    | Some f => [ECancel f; EClose]
                    | None => [EClose]
                    end)).
Proof.
  destruct s as [prm q b lb fut r a ln lg].
  unfold stop, future_cancel. run_monad.
  destruct fut; cbn; unfold set_log; cbn; rewrite <- ?app_assoc; reflexivity.
Qed.

Lemma step_keeps_stopped (a : action) (s : feed) :
  running s = false -> running (step a s) = false.
Proof.
  intros Hr. destruct a as [msg|n|evs| |]; cbn [step].
  - now rewrite callback_running.
  - now rewrite process_message_queue_unfold, Hr.
  - now rewrite monitor_subscription_unfold, Hr.
  - now rewrite load_stopped.
  - now rewrite stop_result.
Qed.

Lemma run_keeps_stopped (acts : list action) (s : feed) :
  running s = false -> running (run acts s) = false.
Proof.
  revert s. induction acts as [|a acts IH]; intros s Hr; [exact Hr|].
  cbn. apply IH. now apply step_keeps_stopped.
Qed.

Lemma load_ended_after_run (acts : list action) (s : feed) :
  running s = false -> (_load (run acts s)).1 = Ret Ended.
Proof.
  intros Hr. rewrite load_stopped; [reflexivity|]. now apply run_keeps_stopped.
Qed.

(** C6 (amended): the retry ceiling counts re-subscribe attempts.  From a
    running feed with a fresh counter and a ceiling of [n], [k <= n]
    consecutive subscription errors whose re-subscribe raises leave the
    monitor in its loop with the feed running and the counter at [k]; it
    is the next error, number [n + 1], that lowers the running flag and
    ends the loop.  Whatever the transport, the callback, the drain
    routine, [_load] or [stop] do afterwards, [_load] returns [Ended];
    only [start] raises the flag again. *)
Theorem monitor_gives_up_after_max_failed_retries
    (s : feed) (n : nat) (rest : list (poll_result * option future))
    (acts : list action) :
  running s = true ->
  _reconnect_attempts s = 0 ->
  max_reconnect_attempts (p s) = Z.of_nat n ->
  (forall k, (k <= n)%nat ->
     (_monitor_subscription (repeat (PollError, None) k) s).1 = Ret Looping /\
     running (_monitor_subscription (repeat (PollError, None) k) s).2 = true /\
     _reconnect_attempts (_monitor_subscription (repeat (PollError, None) k) s).2
       = Z.of_nat k) /\
  (_monitor_subscription (repeat (PollError, None) (S n) ++ rest) s).1 = Ret Exited /\
  running (_monitor_subscription (repeat (PollError, None) (S n) ++ rest) s).2 = false /\
  (_load (run acts
            (_monitor_subscription (repeat (PollError, None) (S n) ++ rest) s).2)).1
    = Ret Ended.
Proof.
  intros Hr Ha Hmax.
  assert (Hdown :
    (_monitor_subscription (repeat (PollError, None) (S n) ++ rest) s).1 = Ret Exited /\
    running (_monitor_subscription (repeat (PollError, None) (S n) ++ rest) s).2 = false).
  { replace (repeat (PollError, @None future) (S n) ++ rest)
      with (repeat (PollError, @None future) n ++ (PollError, None) :: rest).
    2:{ change (repeat ?x (S n)) with (x :: repeat x n).
        rewrite repeat_cons, <- app_assoc. reflexivity. }
    destruct (monitor_failed_retries n s ((PollError, None) :: rest))
      as (s' & Hrun & Hr' & Hp' & _ & Ha'); [assumption|lia|].
    rewrite Hrun, monitor_subscription_unfold, Hr'.
    rewrite monitor_iteration_exhausted by (rewrite Hp', Ha'; lia).
    split; reflexivity. }
  split; [|split; [apply Hdown|split; [apply Hdown|]]].
  - intros k Hk.
    destruct (monitor_failed_retries k s []) as (s' & Hrun & Hr' & _ & _ & Ha');
      [assumption|lia|].
    rewrite app_nil_r in Hrun.
    rewrite Hrun, monitor_subscription_unfold, Hr'. cbn. repeat split; auto. lia.
  - apply load_ended_after_run, Hdown.
Qed.

(** C7: on a subscription error with the feed running and the attempt
    counter below the ceiling, the monitor raises the counter by one,
    sleeps [reconnect_timeout] seconds, whatever the counter says, and
    subscribes again.  If that succeeds the counter goes back to 0, the
    new future is installed, the flag stays up and the loop goes on; if it
    raises, the raised counter stays.  The defaults are 5 seconds and 10
    attempts. *)
Theorem reconnect_fixed_backoff_then_reset (s : feed) (f : future) :
  running s = true ->
  _reconnect_attempts s < max_reconnect_attempts (p s) ->
  monitor_iteration PollError (Some f) s =
    (Ret true,
     Feed (p s) (message_queue s) (data_buffer s) (last_bar s) (Some f) true 0
          (lines s)
          (log s ++ [EPrintAttempt (_reconnect_attempts s + 1)]
                 ++ [ESleep (reconnect_timeout (p s))] ++ [ESubscribe f])) /\
  monitor_iteration PollError None s =
    (Ret true,
     Feed (p s) (message_queue s) (data_buffer s) (last_bar s)
          (_streaming_pull_future s) true (_reconnect_attempts s + 1) (lines s)
          (log s ++ [EPrintAttempt (_reconnect_attempts s + 1)]
                 ++ [ESleep (reconnect_timeout (p s))])) /\
  reconnect_timeout default_params = 5 /\
  max_reconnect_attempts default_params = 10.
Proof.
  intros Hr Hlt. split; [|split; [|split; reflexivity]].
  - now apply monitor_iteration_resubscribed.
  - now apply monitor_iteration_retry_failed.
Qed.

(** *** Stopping *)

Lemma call_stop (r : nat) (w : world) (s : feed) :
  store w !! r = Some s ->
  call r stop w =
    (Ret tt,
     World (<[r := (stop s).2]> (store w)) (mgr_project_id w) (data_feeds w)
           (cerebro_datas w)).
Proof.
  intros Hs. unfold call. rewrite Hs, (stop_result s). reflexivity.
Qed.

Lemma for_each_stop (refs : list nat) :
  forall w : world,
    Forall (fun r => (r < length (store w))%nat) refs ->
    (for_each (fun _ => stop) refs w).1 = Ret tt /\
    forall r s,
      store w !! r = Some s ->
      exists s',
        store (for_each (fun _ => stop) refs w).2 !! r = Some s' /\
        (running s = false \/ r ∈ refs -> running s' = false).
Proof.
  induction refs as [|r0 refs IH]; intros w Hwf.
  - split; [reflexivity|]. intros r s Hs. exists s. split; [exact Hs|].
    intros [H|H]; [exact H|]. now apply elem_of_nil in H.
  - apply Forall_cons in Hwf as [Hr0 Hwf].
    destruct (lookup_lt_is_Some_2 _ _ Hr0) as [s0 Hs0].
    cbn [for_each]. rewrite (call_stop r0 w s0 Hs0).
    set (w1 := World _ _ _ _).
    destruct (IH w1) as [Hret Hall].
    { subst w1. cbn. now rewrite length_insert. }
    split; [exact Hret|].
    intros r s Hs. destruct (decide (r = r0)) as [->|Hne].
    + destruct (Hall r0 (stop s0).2) as (s' & Hs' & Hrun).
      { subst w1. cbn. now apply list_lookup_insert_eq. }
      exists s'. split; [exact Hs'|]. intros _. apply Hrun. left.
      now rewrite stop_result.
    + destruct (Hall r s) as (s' & Hs' & Hrun).
      { subst w1. cbn. now rewrite list_lookup_insert_ne. }
      exists s'. split; [exact Hs'|]. intros [H|H]; apply Hrun; [now left|right].
      apply elem_of_cons in H as [H|H]; [congruence|exact H].
Qed.

Lemma iter_stop_running (n : nat) (s : feed) :
  running (Nat.iter (S n) (fun x => (stop x).2) s) = false.
Proof. cbn. now rewrite stop_result. Qed.

(** C8: [stop] returns normally in every state, also before [start], when
    there is no future to cancel and only the client is closed; after one
    or more calls the running flag is down and [_load] returns [Ended],
    now and after anything but [start].  [stop_all_feeds] returns normally
    too and leaves every registered feed stopped. *)
Theorem stop_is_safe_and_idempotent
    (s : feed) (n : nat) (acts : list action) (w : world) :
  Forall (fun r => (r < length (store w))%nat) (dict_values (data_feeds w)) ->
  (stop s).1 = Ret tt /\
  (_streaming_pull_future s = None -> log (stop s).2 = log s ++ [EClose]) /\
  running (Nat.iter (S n) (fun x => (stop x).2) s) = false /\
  (_load (run acts (Nat.iter (S n) (fun x => (stop x).2) s))).1 = Ret Ended /\
  (stop_all_feeds w).1 = Ret tt /\
  (forall r, r ∈ dict_values (data_feeds w) ->
     exists s', store (stop_all_feeds w).2 !! r = Some s' /\
                running s' = false /\ (_load s').1 = Ret Ended).
Proof.
  intros Hwf.
  destruct (for_each_stop (dict_values (data_feeds w)) w Hwf) as [Hret Hall].
  repeat split.
  - now rewrite stop_result.
  - intros Hf. rewrite stop_result, Hf. reflexivity.
  - apply iter_stop_running.
  - apply load_ended_after_run, iter_stop_running.
  - exact Hret.
  - intros r Hr.
    rewrite Forall_forall in Hwf. specialize (Hwf r Hr).
    destruct (lookup_lt_is_Some_2 _ _ Hwf) as [s0 Hs0].
    destruct (Hall r s0 Hs0) as (s' & Hs' & Hrun).
    exists s'. split; [exact Hs'|]. split; [now apply Hrun; right|].
    rewrite load_stopped; [reflexivity|]. apply Hrun. now right.
Qed.

(** *** vwap *)

Lemma process_accepts (d : dict) (b : bar) :
  _process_market_data_message d = Some b ->
  exists c,
    d !! "close" = Some c /\
    py_float c = Some (b_close b) /\
    py_float (default c (d !! "vwap")) = Some (b_vwap b).
Proof.
  unfold _process_market_data_message, float_item, getitem. run_monad.
  destruct (negb (py_eq_str _ _)); [discriminate|].
  destruct (negb (forallb _ _)); [discriminate|].
  destruct (d !! "timestamp") as [ts|]; [|discriminate].
  destruct (match ts with VStr _ => _ | _ => _ end) as [dt|]; [|discriminate].
  destruct (d !! "open") as [vo|]; [|discriminate].
  destruct (py_float vo) as [o|]; [|discriminate].
  destruct (d !! "high") as [vh|]; [|discriminate].
  destruct (py_float vh) as [h|]; [|discriminate].
  destruct (d !! "low") as [vl|]; [|discriminate].
  destruct (py_float vl) as [l|]; [|discriminate].
  destruct (d !! "close") as [vc|]; [|discriminate].
  destruct (py_float vc) as [c|] eqn:Hc; [|discriminate].
  destruct (d !! "volume") as [vv|]; [|discriminate].
  destruct (py_float vv) as [v|]; [|discriminate].
  destruct (py_float (default vc (d !! "vwap"))) as [vw|] eqn:Hvw; [|discriminate].
  intros [= <-]. exists vc. cbn. auto.
Qed.

(** C9: a bar that [_process_market_data_message] accepts carries
    [float] of the message's [vwap], or of its [close] when there is no
    [vwap]; [_load] does not look at it: with any other vwap in the oldest
    bar the result and all the lines come out the same (and, the feed
    running, the whole state after the call), and the lines a [Loaded]
    result writes are datetime, open, high, low, close
    and volume. *)
Theorem vwap_stored_but_never_loaded
    (d : dict) (b : bar) (s : feed) (rest : list bar) (v : F) :
  _process_market_data_message d = Some b ->
  (exists c, d !! "close" = Some c /\
             py_float (default c (d !! "vwap")) = Some (b_vwap b)) /\
  (d !! "vwap" = None -> b_vwap b = b_close b) /\
  (_load (set_data_buffer (with_vwap v b :: rest) s)).1 =
    (_load (set_data_buffer (b :: rest) s)).1 /\
  lines (_load (set_data_buffer (with_vwap v b :: rest) s)).2 =
    lines (_load (set_data_buffer (b :: rest) s)).2 /\
  (running s = true ->
   _load (set_data_buffer (with_vwap v b :: rest) s) =
     _load (set_data_buffer (b :: rest) s)) /\
  (forall dn, running s = true -> date2num (b_datetime b) = Some dn ->
     _load (set_data_buffer (b :: rest) s) =
       (Ret Loaded,
        set_lines (Lines dn (b_open b) (b_high b) (b_low b) (b_close b)
                         (b_volume b) (l_openinterest (lines s)))
                  (set_data_buffer rest s))).
Proof.
  intros Hb. destruct (process_accepts d b Hb) as (c & Hc & Hfc & Hfv).
  split; [eauto|]. split; [|split; [|split; [|split]]].
  - intros Hno. rewrite Hno in Hfv. cbn in Hfv. congruence.
  - rewrite !load_cases. destruct s as [? ? ? ? ? [] ? ? ?], b; cbn;
      [destruct (date2num _)|]; reflexivity.
  - rewrite !load_cases. destruct s as [? ? ? ? ? [] ? ? ?], b; cbn;
      [destruct (date2num _)|]; reflexivity.
  - intros Hr. rewrite !load_cases.
    destruct s, b; cbn in *; subst; reflexivity.
  - intros dn Hr Hd.
    rewrite (load_bar _ b rest dn); [destruct s; reflexivity| |reflexivity|exact Hd].
    destruct s; exact Hr.
Qed.

(** *** The manager's dictionary *)

Lemma dict_lookup_set {V : Type} (k : string) (v : V) (d : list (string * V)) :
  dict_lookup k (dict_set k v d) = Some v.
Proof.
  induction d as [|[k' v'] d IH]; cbn.
  - now rewrite String.eqb_refl.
  - destruct (String.eqb k' k) eqn:E; cbn.
    + now rewrite String.eqb_refl.
    + now rewrite E.
Qed.

Lemma dict_set_twice {V : Type} (k : string) (v1 v2 : V) (d : list (string * V)) :
  dict_set k v2 (dict_set k v1 d) = dict_set k v2 d.
Proof.
  induction d as [|[k' v'] d IH]; cbn.
  - now rewrite String.eqb_refl.
  - destruct (String.eqb k' k) eqn:E; cbn.
    + now rewrite String.eqb_refl.
    + now rewrite E, IH.
Qed.

Lemma dict_values_set {V : Type} (k : string) (v x : V) (d : list (string * V)) :
  x ∈ dict_values (dict_set k v d) -> x = v \/ x ∈ dict_values d.
Proof.
  unfold dict_values. induction d as [|[k' v'] d IH]; cbn.
  - intros H. apply list_elem_of_singleton in H. now left.
  - destruct (String.eqb k' k); cbn; intros H; apply elem_of_cons in H as [H|H].
    + now left.
    + right. now apply list_elem_of_further.
    + right. subst. apply list_elem_of_here.
    + destruct (IH H) as [H'|H']; [now left|right]. now apply list_elem_of_further.
Qed.

Lemma dict_values_set_new {V : Type} (k : string) (v : V) (d : list (string * V)) :
  v ∈ dict_values (dict_set k v d).
Proof.
  unfold dict_values. induction d as [|[k' v'] d IH]; cbn.
  - apply list_elem_of_here.
  - destruct (String.eqb k' k); cbn.
    + apply list_elem_of_here.
    + now apply list_elem_of_further.
Qed.

Lemma add_market_data_feed_valid (sym tf : string) (w : world) :
  refs_valid w -> refs_valid (add_market_data_feed sym tf w).2.
Proof.
  unfold refs_valid. rewrite !Forall_forall. intros Hwf r Hr. cbn in *.
  rewrite length_app. cbn.
  apply dict_values_set in Hr as [->|Hr]; [lia|].
  specialize (Hwf r Hr). lia.
Qed.

Lemma for_each_frame (method : nat -> M unit) (refs : list nat) :
  forall (w : world) (r : nat),
    r ∉ refs ->
    store (for_each method refs w).2 !! r = store w !! r /\
    data_feeds (for_each method refs w).2 = data_feeds w /\
    cerebro_datas (for_each method refs w).2 = cerebro_datas w.
Proof.
  induction refs as [|r0 refs IH]; intros w r Hr; [now cbn|].
  apply not_elem_of_cons in Hr as [Hne Hr].
  cbn [for_each]. unfold call.
  destruct (store w !! r0) as [s0|] eqn:Hs0; [|now cbn].
  destruct (method r0 s0) as [[[]|e] s1].
  - destruct (IH (World (<[r0:=s1]> (store w)) (mgr_project_id w) (data_feeds w)
                        (cerebro_datas w)) r Hr) as (H1 & H2 & H3).
    rewrite H1, H2, H3. cbn. now rewrite list_lookup_insert_ne.
  - cbn. now rewrite list_lookup_insert_ne.
Qed.

Lemma get_status_lookup (k : string) (w : world) :
  refs_valid w ->
  dict_lookup k (get_status w) =
    match dict_lookup k (data_feeds w) with
    | Some r => get_buffer_status <$> store w !! r
    | None => None
    end.
Proof.
  unfold refs_valid, get_status, dict_values.
  induction (data_feeds w) as [|[k' r'] d IH]; intros Hwf; [reflexivity|].
  cbn in Hwf. apply Forall_cons in Hwf as [Hr' Hwf].
  destruct (lookup_lt_is_Some_2 _ _ Hr') as [s' Hs'].
  cbn. rewrite Hs'. cbn. destruct (String.eqb k' k); [now rewrite Hs'|]. now apply IH.
Qed.

(** *** Starting and stopping through the manager *)

Lemma start_result (sub : option future) (s : feed) :
  start sub s =
    match sub with
    | Some f =>
        (Ret tt,
         Feed (p s) (message_queue s) (data_buffer s) (last_bar s) (Some f) true
              (_reconnect_attempts s) (lines s)
              (log s ++ [ESubscribe f; ESpawnMonitor; ESpawnDrain]))
    | None => (Raise OtherException, set_running true s)
    end.
Proof.
  destruct s as [prm q b lb fut r a ln lg].
  unfold start, subscribe. run_monad.
  destruct sub; cbn; unfold set_log; cbn; rewrite <- ?app_assoc; reflexivity.
Qed.

Lemma for_each_shape (method : nat -> M unit) (refs : list nat) :
  forall w : world,
    length (store (for_each method refs w).2) = length (store w) /\
    data_feeds (for_each method refs w).2 = data_feeds w /\
    cerebro_datas (for_each method refs w).2 = cerebro_datas w.
Proof.
  induction refs as [|r0 refs IH]; intros w; [now cbn|].
  cbn [for_each]. unfold call.
  destruct (store w !! r0) as [s0|] eqn:Hs0; [|now cbn].
  destruct (method r0 s0) as [[[]|e] s1].
  - destruct (IH (World (<[r0:=s1]> (store w)) (mgr_project_id w) (data_feeds w)
                        (cerebro_datas w))) as (H1 & H2 & H3).
    rewrite H1, H2, H3. cbn. now rewrite length_insert.
  - cbn. now rewrite length_insert.
Qed.

Lemma call_start (r : nat) (sub : option future) (w : world) (s : feed) :
  store w !! r = Some s ->
  call r (start sub) w =
    ((start sub s).1,
     World (<[r := (start sub s).2]> (store w)) (mgr_project_id w) (data_feeds w)
           (cerebro_datas w)).
Proof.
  intros Hs. unfold call. rewrite Hs. now destruct (start sub s).
Qed.

Lemma for_each_start (sub : nat -> option future) (refs : list nat) :
  forall w : world,
    Forall (fun r => (r < length (store w))%nat) refs ->
    (forall r, r ∈ refs -> is_Some (sub r)) ->
    (for_each (fun r => start (sub r)) refs w).1 = Ret tt /\
    forall r s,
      store w !! r = Some s ->
      exists s',
        store (for_each (fun r => start (sub r)) refs w).2 !! r = Some s' /\
        ((running s = true /\ _streaming_pull_future s = sub r) \/ r ∈ refs ->
         running s' = true /\ _streaming_pull_future s' = sub r).
Proof.
  induction refs as [|r0 refs IH]; intros w Hwf Hsub.
  - split; [reflexivity|]. intros r s Hs. exists s. split; [exact Hs|].
    intros [H|H]; [exact H|]. now apply elem_of_nil in H.
  - apply Forall_cons in Hwf as [Hr0 Hwf].
    destruct (lookup_lt_is_Some_2 _ _ Hr0) as [s0 Hs0].
    destruct (Hsub r0) as [f0 Hf0]; [apply list_elem_of_here|].
    cbn [for_each]. rewrite (call_start r0 (sub r0) w s0 Hs0).
    rewrite start_result, Hf0. cbn [fst snd].
    set (s1 := Feed _ _ _ _ _ _ _ _ _).
    set (w1 := World _ _ _ _).
    destruct (IH w1) as [Hret Hall].
    { subst w1. cbn. now rewrite length_insert. }
    { intros r Hr. apply Hsub. now apply list_elem_of_further. }
    split; [exact Hret|].
    intros r s Hs. destruct (decide (r = r0)) as [->|Hne].
    + destruct (Hall r0 s1) as (s' & Hs' & Hrun).
      { subst w1. cbn. now apply list_lookup_insert_eq. }
      exists s'. split; [exact Hs'|]. intros _. apply Hrun. left.
      subst s1. cbn. now rewrite Hf0.
    + destruct (Hall r s) as (s' & Hs' & Hrun).
      { subst w1. cbn. now rewrite list_lookup_insert_ne. }
      exists s'. split; [exact Hs'|]. intros [H|H]; apply Hrun; [now left|right].
      apply elem_of_cons in H as [H|H]; [congruence|exact H].
Qed.

(** C10: adding a market-data feed twice for one symbol leaves the
    manager's dictionary pointing at the second feed only.  Both feeds are
    registered with cerebro and both objects exist, but the first is no
    longer among the dictionary's values: [start_all_feeds] and
    [stop_all_feeds] do not touch it, [stop_all_feeds] stops the second,
    and the status reported for the symbol is the second feed's.  Neither
    feed is running to begin with.  When the subscriptions succeed,
    [start_all_feeds] returns and has started the second feed, on its own
    future, while the first is still as it was added; the status for the
    symbol then shows a running feed; and [stop_all_feeds] after that
    stops the second feed again, the first still untouched. *)
Theorem second_feed_replaces_first
    (w : world) (sym tf1 tf2 : string) (sub : nat -> option future) :
  refs_valid w ->
  let r1 := (add_market_data_feed sym tf1 w).1 in
  let w1 := (add_market_data_feed sym tf1 w).2 in
  let r2 := (add_market_data_feed sym tf2 w1).1 in
  let w2 := (add_market_data_feed sym tf2 w1).2 in
  r1 <> r2 /\
  dict_lookup sym (data_feeds w2) = Some r2 /\
  r2 ∈ dict_values (data_feeds w2) /\
  (r1 ∉ dict_values (data_feeds w2)) /\
  r1 ∈ cerebro_datas w2 /\
  r2 ∈ cerebro_datas w2 /\
  is_Some (store w2 !! r1) /\
  store (start_all_feeds sub w2).2 !! r1 = store w2 !! r1 /\
  store (stop_all_feeds w2).2 !! r1 = store w2 !! r1 /\
  dict_lookup sym (get_status w2) = get_buffer_status <$> store w2 !! r2 /\
  (exists s2, store (stop_all_feeds w2).2 !! r2 = Some s2 /\ running s2 = false) /\
  (exists s1 s2, store w2 !! r1 = Some s1 /\ running s1 = false /\
                 store w2 !! r2 = Some s2 /\ running s2 = false) /\
  ((forall r, r ∈ dict_values (data_feeds w2) -> is_Some (sub r)) ->
   (start_all_feeds sub w2).1 = Ret tt /\
   (exists s2, store (start_all_feeds sub w2).2 !! r2 = Some s2 /\
               running s2 = true /\ _streaming_pull_future s2 = sub r2) /\
   (exists st, dict_lookup sym (get_status (start_all_feeds sub w2).2) = Some st /\
               st_running st = true) /\
   (stop_all_feeds (start_all_feeds sub w2).2).1 = Ret tt /\
   (exists s2, store (stop_all_feeds (start_all_feeds sub w2).2).2 !! r2 = Some s2 /\
               running s2 = false) /\
   store (stop_all_feeds (start_all_feeds sub w2).2).2 !! r1 = store w2 !! r1).
Proof.
  intros Hwf r1 w1 r2 w2.
  assert (Hwf2 : refs_valid w2)
    by (apply add_market_data_feed_valid, add_market_data_feed_valid, Hwf).
  assert (Hr1 : r1 = length (store w)) by reflexivity.
  assert (Hr2 : r2 = S (length (store w))).
  { subst r2 w1. cbn. rewrite length_app. cbn. lia. }
  assert (Hfeeds : data_feeds w2 = dict_set sym r2 (data_feeds w)).
  { subst w2 w1. cbn. apply dict_set_twice. }
  assert (Hin2 : r2 ∈ dict_values (data_feeds w2)).
  { rewrite Hfeeds. apply dict_values_set_new. }
  assert (Hout1 : r1 ∉ dict_values (data_feeds w2)).
  { rewrite Hfeeds. intros Hin. apply dict_values_set in Hin as [Heq|Hin]; [lia|].
    unfold refs_valid in Hwf. rewrite Forall_forall in Hwf.
    specialize (Hwf r1 Hin). lia. }
  assert (Hlen2 : length (store w2) = S (S (length (store w)))).
  { subst w2 w1. cbn. rewrite !length_app. cbn. lia. }
  split; [lia|]. split.
  { rewrite Hfeeds. apply dict_lookup_set. }
  split; [exact Hin2|]. split; [exact Hout1|]. split.
  { subst w2 w1. cbn. rewrite !elem_of_app. left. right. apply list_elem_of_here. }
  split.
  { subst w2 w1. cbn. rewrite !elem_of_app. right. apply list_elem_of_here. }
  split.
  { apply lookup_lt_is_Some_2. lia. }
  split.
  { unfold start_all_feeds. now apply for_each_frame. }
  split.
  { unfold stop_all_feeds. now apply for_each_frame. }
  split.
  { rewrite (get_status_lookup sym w2 Hwf2), Hfeeds, dict_lookup_set. reflexivity. }
  destruct (for_each_stop (dict_values (data_feeds w2)) w2 Hwf2) as [_ Hall].
  destruct (lookup_lt_is_Some_2 (store w2) r2) as [s0 Hs0]; [lia|].
  destruct (Hall r2 s0 Hs0) as (s2 & Hs2 & Hrun).
  split.
  { exists s2. split; [exact Hs2|]. apply Hrun. now right. }
  assert (Hfresh1 : exists s1, store w2 !! r1 = Some s1 /\ running s1 = false).
  { unfold w2, w1. cbn. eexists. split.
    - rewrite <- app_assoc. rewrite lookup_app_r by lia.
      rewrite Hr1, Nat.sub_diag. reflexivity.
    - reflexivity. }
  assert (Hfresh2 : running s0 = false).
  { unfold w2, w1 in Hs0. cbn in Hs0.
    rewrite lookup_app_r in Hs0 by lia.
    rewrite Nat.sub_diag in Hs0. injection Hs0 as <-. reflexivity. }
  split.
  { destruct Hfresh1 as (s1 & Hs1 & Hrun1). exists s1, s0. auto. }
  intros Hsub.
  destruct (for_each_start sub (dict_values (data_feeds w2)) w2 Hwf2 Hsub)
    as [Hret Hstarted].
  destruct (for_each_shape (fun r => start (sub r)) (dict_values (data_feeds w2)) w2)
    as (Hlen3 & Hfeeds3 & _).
  fold (start_all_feeds sub w2) in Hret, Hstarted, Hlen3, Hfeeds3.
  destruct (Hstarted r2 s0 Hs0) as (s3 & Hs3 & Hrun3).
  destruct Hrun3 as [Hrun3 Hfut3]; [now right|].
  assert (Hwf3 : refs_valid (start_all_feeds sub w2).2).
  { unfold refs_valid. rewrite Hfeeds3, Hlen3. exact Hwf2. }
  destruct (for_each_stop (dict_values (data_feeds (start_all_feeds sub w2).2))
              (start_all_feeds sub w2).2 Hwf3) as [Hret4 Hstopped].
  fold (stop_all_feeds (start_all_feeds sub w2).2) in Hret4, Hstopped.
  split; [exact Hret|]. split; [eauto|]. split.
  { rewrite (get_status_lookup sym _ Hwf3), Hfeeds3, Hfeeds, dict_lookup_set, Hs3.
    eexists. split; [reflexivity|]. exact Hrun3. }
  split; [exact Hret4|]. split.
  { destruct (Hstopped r2 s3 Hs3) as (s4 & Hs4 & Hrun4).
    exists s4. split; [exact Hs4|]. apply Hrun4. right. now rewrite Hfeeds3. }
  transitivity (store (start_all_feeds sub w2).2 !! r1).
  - unfold stop_all_feeds at 1. apply for_each_frame. now rewrite Hfeeds3.
  - unfold start_all_feeds. now apply for_each_frame.
Qed.

End Properties.

(** * Further properties of the feed, the manager and their caller *)

Section RunProperties.
Context {F datetime : Type} {RT : PyRuntime F datetime}.

Local Abbreviation feed := (@feed F datetime).
Local Abbreviation bar := (@bar F datetime).
Local Abbreviation world := (@world F datetime).
Local Abbreviation dict := (gmap string (pyval F)).

Ltac run_monad :=
  cbv [mbind mret M_mbind M_mret M_bind M_ret try_except get_self modify_self
       lift raise emit outcome_mbind outcome_mret outcome_bind lift_opt] in *.

(** *** What each method leaves alone *)

Lemma callback_result (msg : message) (s : feed) :
  _pubsub_callback msg s =
    (Ret tt,
     match json_loads (msg_data msg) with
     | Some (VDict d) =>
         if py_eq_str (default VNone (d !! "symbol")) (symbol (p s))
         then set_log (log s ++ [EAck (msg_id msg)])
                (set_message_queue (message_queue s ++ [d]) s)
         else set_log (log s ++ [EAck (msg_id msg)]) s
     | _ => set_log (log s ++ [ENack (msg_id msg)]) s
     end).
Proof.
  destruct (json_loads (msg_data msg)) as [v|] eqn:Hj.
  - destruct v;
      try (rewrite (callback_not_object s msg _ Hj) by discriminate; reflexivity).
    apply (callback_object s msg d Hj).
  - apply (callback_undecodable s msg Hj).
Qed.

Lemma drain_iteration_result (s : feed) :
  drain_iteration s =
    (Ret tt,
     match message_queue s with
     | [] => s
     | m :: q =>
         match _process_market_data_message m with
         | Some b =>
             set_last_bar (Some b)
               (set_data_buffer
                  (deque_append (max_buffer_size (p s)) b (data_buffer s))
                  (set_message_queue q s))
         | None => set_message_queue q s
         end
     end).
Proof.
  destruct (message_queue s) as [|m q] eqn:Hq.
  - now apply drain_iteration_idle.
  - destruct (_process_market_data_message m) as [b|] eqn:Hb.
    + now apply (drain_iteration_bar s m q b).
    + now apply (drain_iteration_rejected s m q).
Qed.

Lemma monitor_iteration_result (poll : poll_result) (resub : option future) (s : feed) :
  exists (go_on : bool) (fut : option future) (r : bool) (a : Z) (lg : list effect),
    monitor_iteration poll resub s =
      (Ret go_on,
       Feed (p s) (message_queue s) (data_buffer s) (last_bar s) fut r a (lines s) lg).
Proof.
  destruct s as [prm q b lb fut r a ln lg].
  unfold monitor_iteration, future_result, _reconnect, subscribe. run_monad.
  destruct fut as [f0|], poll, resub as [f|]; cbn;
    try (destruct (r && (a <? max_reconnect_attempts prm)); cbn);
    unfold set_running, set_log, set_attempts, set_future; cbn; eauto 10.
Qed.

(** A property of feeds that one turn of a loop keeps is kept by the
    loop. *)
Lemma process_message_queue_keeps (P : feed -> Prop) :
  (forall s, P s -> P (drain_iteration s).2) ->
  forall n s, P s -> P (_process_message_queue n s).2.
Proof.
  intros Hstep. induction n as [|n IH]; intros s Hs;
    rewrite process_message_queue_unfold; destruct (running s); cbn; auto.
Qed.

Lemma monitor_subscription_keeps (P : feed -> Prop) :
  (forall poll resub s, P s -> P (monitor_iteration poll resub s).2) ->
  forall evs s, P s -> P (_monitor_subscription evs s).2.
Proof.
  intros Hstep. induction evs as [|[poll resub] evs IH]; intros s Hs;
    rewrite monitor_subscription_unfold; destruct (running s); cbn; auto.
  specialize (Hstep poll resub s Hs).
  destruct (monitor_iteration poll resub s) as [[[]|e] s']; cbn in *; auto.
Qed.

(** *** Invariants of a feed's life *)

Lemma length_deque_append {A : Type} (n : nat) (x : A) (d : list A) :
  (length d <= n)%nat -> (length (deque_append n x d) <= n)%nat.
Proof.
  intros H. unfold deque_append. rewrite length_app. cbn [length].
  destruct (n <? _)%nat eqn:E.
  - destruct d; cbn in *; [lia|]. rewrite length_app. cbn. lia.
  - apply Nat.ltb_ge in E. rewrite length_app. cbn. lia.
Qed.

Lemma last_deque_append {A : Type} (n : nat) (x : A) (d : list A) :
  deque_append n x d <> [] -> last (deque_append n x d) = Some x.
Proof.
  unfold deque_append. destruct (n <? _)%nat.
  - destruct d as [|y d]; cbn; [congruence|]. intros _. apply last_snoc.
  - intros _. apply last_snoc.
Qed.

Lemma feed_inv_init (prm : params) : feed_inv (init prm).
Proof. split; cbn; [lia|congruence]. Qed.

Lemma feed_inv_drain (s : feed) : feed_inv s -> feed_inv (drain_iteration s).2.
Proof.
  intros [Hlen Hlast]. rewrite drain_iteration_result. cbn [snd].
  destruct (message_queue s) as [|m q]; [now split|].
  destruct (_process_market_data_message m) as [b|]; [|now split].
  destruct s as [prm mq buf lb fut r a ln lg]; cbn in *. split; cbn.
  - now apply length_deque_append.
  - apply last_deque_append.
Qed.

Lemma feed_inv_load (s : feed) : feed_inv s -> feed_inv (_load s).2.
Proof.
  intros [Hlen Hlast]. rewrite load_cases.
  destruct (running s); [|now split].
  destruct (data_buffer s) as [|b rest] eqn:Hb;
    [split; cbn [snd]; rewrite Hb; assumption|].
  assert (Hrest : (length rest <= max_buffer_size (p s))%nat /\
                  (rest <> [] -> last rest = last_bar s)).
  { split; [cbn in Hlen; lia|]. intros Hne. rewrite <- Hlast by congruence.
    destruct rest; [congruence|reflexivity]. }
  destruct (date2num (b_datetime b));
    destruct s as [prm mq buf lb fut r a ln lg]; cbn in *; exact Hrest.
Qed.

Lemma feed_inv_op (o : op) (s : feed) : feed_inv s -> feed_inv (op_step o s).
Proof.
  intros Hs. destruct o as [sub|[msg|n|evs| |]]; cbn [op_step step].
  - rewrite start_result. destruct sub; exact Hs.
  - rewrite callback_result. cbn [snd].
    destruct (json_loads (msg_data msg)) as [[]|]; try exact Hs.
    destruct (py_eq_str _ _); exact Hs.
  - apply process_message_queue_keeps; [apply feed_inv_drain|exact Hs].
  - apply monitor_subscription_keeps; [|exact Hs].
    intros poll resub s0 Hs0.
    destruct (monitor_iteration_result poll resub s0) as (g & fut & r & a & lg & ->).
    exact Hs0.
  - now apply feed_inv_load.
  - rewrite stop_result. exact Hs.
Qed.

Lemma feed_inv_run (ops : list op) (s : feed) : feed_inv s -> feed_inv (op_run ops s).
Proof.
  revert s. induction ops as [|o ops IH]; intros s Hs; [exact Hs|].
  cbn. apply IH. now apply feed_inv_op.
Qed.

(** X1: whatever is done to a feed after its construction, in whatever
    order (starts, deliveries, drain turns, monitor turns, pulls, stops),
    its buffer never holds more than [max_buffer_size] bars, and the
    status it reports never shows more buffered bars than the capacity it
    reports. *)
Theorem buffer_never_exceeds_capacity (prm : params) (ops : list op) :
  (length (data_buffer (op_run ops (init prm))) <= max_buffer_size prm)%nat /\
  (st_buffer_size (get_buffer_status (op_run ops (init prm)))
   <= st_max_buffer_size (get_buffer_status (op_run ops (init prm))))%nat /\
  st_max_buffer_size (get_buffer_status (op_run ops (init prm))) = max_buffer_size prm.
Proof.
  assert (Hp : forall ops' (s : feed), p (op_run ops' s) = p s).
  { induction ops' as [|o ops' IH]; intros s; [reflexivity|].
    change (p (op_run ops' (op_step o s)) = p s). rewrite IH.
    destruct o as [sub|[msg|n|evs| |]]; cbn [op_step step].
    - rewrite start_result. now destruct sub.
    - rewrite callback_result. cbn [snd].
      destruct (json_loads (msg_data msg)) as [[]|]; try reflexivity.
      now destruct (py_eq_str _ _).
    - apply (process_message_queue_keeps (fun s' => p s' = p s)); [|reflexivity].
      intros s0 <-. rewrite drain_iteration_result. cbn [snd].
      destruct (message_queue s0); [reflexivity|].
      now destruct (_process_market_data_message _).
    - apply (monitor_subscription_keeps (fun s' => p s' = p s)); [|reflexivity].
      intros poll resub s0 <-.
      now destruct (monitor_iteration_result poll resub s0)
        as (g & fut & r & a & lg & ->).
    - rewrite load_cases. destruct (running s); [|reflexivity].
      destruct (data_buffer s) as [|b rest]; [reflexivity|].
      now destruct (date2num _).
    - now rewrite stop_result. }
  destruct (feed_inv_run ops (init prm) (feed_inv_init prm)) as [Hlen _].
  rewrite Hp in Hlen. cbn in Hlen.
  unfold get_buffer_status. cbn. rewrite Hp. cbn. auto.
Qed.

(** X2: whenever no drain turn is under way, that is after any sequence
    of whole calls and whole loop turns since the feed's construction, a
    buffer that is not empty has the last-bar snapshot (the bar whose time
    the status reports) as its newest bar.  Within a drain turn the bar is
    appended first and the snapshot assigned next; a status read between
    those two statements sees the snapshot one bar behind, and that moment
    is not among the states this says anything about. *)
Theorem last_bar_is_newest_buffered (prm : params) (ops : list op) :
  data_buffer (op_run ops (init prm)) <> [] ->
  last_bar (op_run ops (init prm)) = last (data_buffer (op_run ops (init prm))).
Proof.
  intros Hne.
  destruct (feed_inv_run ops (init prm) (feed_inv_init prm)) as [_ Hlast].
  symmetry. now apply Hlast.
Qed.

(** *** Pulling *)

(** The lines after a bar was loaded over lines [l]. *)
Local Abbreviation loaded_lines l b d :=
  (Lines d (b_open b) (b_high b) (b_low b) (b_close b) (b_volume b)
         (l_openinterest l)).

Lemma pull_loaded (bars : list bar) (ds : list F) :
  Forall2 (fun b d => date2num (b_datetime b) = Some d) bars ds ->
  forall (s : feed) (rest : list bar),
    running s = true ->
    data_buffer s = bars ++ rest ->
    (pull (length bars) s).1 =
      zip_with (fun b d => (Ret Loaded, loaded_lines (lines s) b d)) bars ds /\
    data_buffer (pull (length bars) s).2 = rest /\
    running (pull (length bars) s).2 = true /\
    message_queue (pull (length bars) s).2 = message_queue s.
Proof.
  induction 1 as [|b d bars ds Hd Hall IH]; intros s rest Hr Hb; [now cbn|].
  cbn [length pull zip_with fst snd].
  rewrite (load_bar s b (bars ++ rest) d Hr Hb Hd). cbn [fst snd].
  set (s1 := set_lines _ _).
  destruct (IH s1 rest) as (H1 & H2 & H3 & H4).
  { subst s1. destruct s; exact Hr. }
  { subst s1. destruct s; reflexivity. }
  rewrite H1, H2, H3, H4. subst s1. destruct s; cbn. auto.
Qed.

Lemma pull_running (n : nat) :
  forall s : feed,
    running s = true ->
    data_buffer (pull n s).2 = drop n (data_buffer s) /\
    running (pull n s).2 = true /\
    Forall (fun r => r.1 = Ret Loaded \/ r.1 = Ret Empty) (pull n s).1.
Proof.
  induction n as [|n IH]; intros s Hr; [now cbn|].
  cbn [pull fst snd]. rewrite load_cases, Hr.
  destruct (data_buffer s) as [|b rest] eqn:Hb.
  - cbn [fst snd]. destruct (IH s Hr) as (H1 & H2 & H3).
    rewrite H1, H2, Hb, drop_nil. repeat split; auto.
  - destruct (date2num (b_datetime b)) as [d|] eqn:Hd; cbn [fst snd].
    + set (s1 := set_lines _ _).
      assert (Hr1 : running s1 = true) by (subst s1; destruct s; exact Hr).
      assert (Hb1 : data_buffer s1 = rest) by (subst s1; destruct s; reflexivity).
      destruct (IH s1 Hr1) as (H1 & H2 & H3). rewrite H1, H2, Hb1.
      repeat split; auto.
    + set (s1 := set_data_buffer _ _).
      assert (Hr1 : running s1 = true) by (subst s1; destruct s; exact Hr).
      assert (Hb1 : data_buffer s1 = rest) by (subst s1; destruct s; reflexivity).
      destruct (IH s1 Hr1) as (H1 & H2 & H3). rewrite H1, H2, Hb1.
      repeat split; auto.
Qed.

Lemma pull_stopped (n : nat) (s : feed) :
  running s = false ->
  pull n s = (repeat (Ret Ended, lines s) n, s).
Proof.
  intros Hr. induction n as [|n IH]; [reflexivity|].
  cbn [pull]. rewrite (load_stopped s Hr). cbn [fst snd]. now rewrite IH.
Qed.

(** X3: pulls deliver the buffer oldest bar first.  With the feed running
    and every buffered bar convertible, as many [_load] calls as there are
    bars all answer [Loaded], the k-th call leaving the k-th bar's
    datetime, open, high, low, close and volume in the lines (and the
    open-interest line as it was); the buffer is then empty and the next
    call answers [Empty]. *)
Theorem pull_is_fifo (s : feed) (bars : list bar) (ds : list F) :
  running s = true ->
  data_buffer s = bars ->
  Forall2 (fun b d => date2num (b_datetime b) = Some d) bars ds ->
  (pull (length bars) s).1 =
    zip_with (fun b d => (Ret Loaded, loaded_lines (lines s) b d)) bars ds /\
  data_buffer (pull (length bars) s).2 = [] /\
  (_load (pull (length bars) s).2).1 = Ret Empty.
Proof.
  intros Hr Hb Hall.
  destruct (pull_loaded bars ds Hall s [] Hr) as (H1 & H2 & H3 & _).
  { now rewrite app_nil_r. }
  split; [exact H1|]. split; [exact H2|].
  now rewrite (load_empty _ H3 H2).
Qed.

(** X4: while the feed is running every [_load] call takes exactly one bar
    off the buffer, whether it could be converted or not, until the buffer
    is empty; and no call answers [Ended]. *)
Theorem pull_takes_one_bar_per_call (s : feed) (n : nat) :
  running s = true ->
  data_buffer (pull n s).2 = drop n (data_buffer s) /\
  Forall (fun r => r.1 = Ret Loaded \/ r.1 = Ret Empty) (pull n s).1.
Proof.
  intros Hr. destruct (pull_running n s Hr) as (H1 & _ & H3). auto.
Qed.

(** X5: [stop] does not clear the buffer and [start] does not either.
    After [stop], pulls answer [Ended] and change nothing; once the feed is
    started again the bars that were buffered before the stop are loaded,
    oldest first. *)
Theorem unread_bars_survive_stop_and_restart
    (s : feed) (n : nat) (f : future) (ds : list F) :
  Forall2 (fun b d => date2num (b_datetime b) = Some d) (data_buffer s) ds ->
  (pull n (stop s).2).1 = repeat (Ret Ended, lines s) n /\
  data_buffer (pull n (stop s).2).2 = data_buffer s /\
  (pull (length (data_buffer s)) (start (Some f) (pull n (stop s).2).2).2).1 =
    zip_with (fun b d => (Ret Loaded, loaded_lines (lines s) b d)) (data_buffer s) ds.
Proof.
  intros Hall.
  assert (Hstopped : running (stop s).2 = false) by now rewrite stop_result.
  rewrite (pull_stopped n _ Hstopped). cbn [fst snd].
  rewrite stop_result. cbn [fst snd].
  split; [reflexivity|]. split; [reflexivity|].
  rewrite start_result. cbn [snd].
  set (s1 := Feed _ _ _ _ _ _ _ _ _).
  destruct (pull_loaded (data_buffer s) ds Hall s1 []) as (H1 & _).
  - reflexivity.
  - subst s1. cbn. now rewrite app_nil_r.
  - exact H1.
Qed.

(** *** Deliveries *)

Lemma py_eq_str_lookup (d : dict) (k sym : string) :
  py_eq_str (default VNone (d !! k)) sym = true <-> d !! k = Some (VStr sym).
Proof.
  destruct (d !! k) as [v|]; cbn; [|split; discriminate].
  destruct v; cbn; try (split; discriminate).
  rewrite String.eqb_eq. split; congruence.
Qed.

(** X6: the callback never raises and answers every message exactly once:
    with [ack] if the payload decodes to a JSON object, with [nack]
    otherwise.  It appends the object to the queue exactly when its
    [symbol] entry equals the feed's symbol, whatever else the object
    holds and whether or not the feed is running, and it touches nothing
    else: buffer, last bar, lines, running flag, future and attempt counter
    stay as they were. *)
Theorem callback_answers_once_and_only_queues (s : feed) (msg : message) :
  (_pubsub_callback msg s).1 = Ret tt /\
  (exists e,
     log (_pubsub_callback msg s).2 = log s ++ [e] /\
     (e = EAck (msg_id msg) \/ e = ENack (msg_id msg)) /\
     (e = EAck (msg_id msg) <->
      exists d, json_loads (msg_data msg) = Some (VDict d))) /\
  (forall d,
     json_loads (msg_data msg) = Some (VDict d) ->
     (d !! "symbol" = Some (VStr (symbol (p s))) ->
      message_queue (_pubsub_callback msg s).2 = message_queue s ++ [d]) /\
     (d !! "symbol" <> Some (VStr (symbol (p s))) ->
      message_queue (_pubsub_callback msg s).2 = message_queue s)) /\
  ((forall d, json_loads (msg_data msg) <> Some (VDict d)) ->
   message_queue (_pubsub_callback msg s).2 = message_queue s) /\
  data_buffer (_pubsub_callback msg s).2 = data_buffer s /\
  last_bar (_pubsub_callback msg s).2 = last_bar s /\
  lines (_pubsub_callback msg s).2 = lines s /\
  running (_pubsub_callback msg s).2 = running s /\
  _streaming_pull_future (_pubsub_callback msg s).2 = _streaming_pull_future s /\
  _reconnect_attempts (_pubsub_callback msg s).2 = _reconnect_attempts s /\
  p (_pubsub_callback msg s).2 = p s.
Proof.
  rewrite callback_result. cbn [fst snd]. split; [reflexivity|].
  destruct (json_loads (msg_data msg)) as [v|] eqn:Hj.
  - destruct v as [| | | | | |d];
      try (split; [exists (ENack (msg_id msg)); split; [reflexivity|];
                   split; [now right|]; split; [discriminate|];
                   intros [d' Hd']; discriminate|];
           split; [intros d' Hd'; discriminate|]; repeat split; reflexivity).
    split.
    { exists (EAck (msg_id msg)).
      split; [destruct (py_eq_str _ _); reflexivity|].
      split; [now left|]. split; [eauto|reflexivity]. }
    split.
    { intros d' [= <-].
      destruct (py_eq_str _ _) eqn:E.
      - apply py_eq_str_lookup in E. split; [reflexivity|congruence].
      - split; [|reflexivity].
        intros Hs. apply py_eq_str_lookup in Hs. congruence. }
    split; [intros Hno; now destruct (Hno d)|].
    destruct (py_eq_str _ _); repeat split; reflexivity.
  - split.
    { exists (ENack (msg_id msg)). split; [reflexivity|]. split; [now right|].
      split; [discriminate|]. intros [d' Hd']. discriminate. }
    split; [intros d' Hd'; discriminate|]. repeat split; reflexivity.
Qed.

Lemma deliver_matching (msgs : list message) (dicts : list dict) :
  forall s : feed,
    Forall2 (fun m d => json_loads (msg_data m) = Some (VDict d) /\
                        d !! "symbol" = Some (VStr (symbol (p s))))
            msgs dicts ->
    deliver msgs s =
      set_log (log s ++ map (fun m => EAck (msg_id m)) msgs)
        (set_message_queue (message_queue s ++ dicts) s).
Proof.
  revert dicts. induction msgs as [|m msgs IH]; intros dicts s Hall.
  - inversion Hall; subst. cbn. rewrite !app_nil_r. now destruct s.
  - inversion Hall as [|m' d msgs' dicts' [Hj Hs] Hall']; subst.
    change (deliver (m :: msgs) s) with (deliver msgs (_pubsub_callback m s).2).
    rewrite callback_result, Hj. cbn [snd].
    apply py_eq_str_lookup in Hs. rewrite Hs.
    rewrite (IH dicts'); [|destruct s; exact Hall'].
    destruct s; cbn. unfold set_log, set_message_queue. cbn.
    now rewrite <- !app_assoc.
Qed.

Lemma drain_frame (n : nat) (s : feed) :
  running (_process_message_queue n s).2 = running s /\
  lines (_process_message_queue n s).2 = lines s /\
  p (_process_message_queue n s).2 = p s /\
  log (_process_message_queue n s).2 = log s /\
  _streaming_pull_future (_process_message_queue n s).2 = _streaming_pull_future s /\
  _reconnect_attempts (_process_message_queue n s).2 = _reconnect_attempts s.
Proof.
  apply (process_message_queue_keeps
           (fun s' => running s' = running s /\ lines s' = lines s /\ p s' = p s /\
                      log s' = log s /\
                      _streaming_pull_future s' = _streaming_pull_future s /\
                      _reconnect_attempts s' = _reconnect_attempts s));
    [|repeat split].
  intros s0 H0. rewrite drain_iteration_result. cbn [snd].
  destruct (message_queue s0); [exact H0|].
  destruct (_process_market_data_message _); destruct s0; exact H0.
Qed.

Lemma drain_queue (n : nat) :
  forall s : feed,
    running s = true ->
    message_queue (_process_message_queue n s).2 = drop n (message_queue s).
Proof.
  induction n as [|n IH]; intros s Hr;
    rewrite process_message_queue_unfold, Hr; [now rewrite drop_0|].
  rewrite drain_iteration_result. cbn [snd].
  destruct (message_queue s) as [|m q] eqn:Hq.
  - rewrite IH by assumption. now rewrite Hq, drop_nil.
  - destruct (_process_market_data_message m);
      (rewrite IH; [destruct s; reflexivity|destruct s; exact Hr]).
Qed.

(** X7: nothing is lost or reordered on the way from the broker to the
    strategy while the buffer has room.  Messages for the feed's symbol
    that decode to acceptable, convertible bars, no more of them than the
    capacity, delivered to a running feed with empty queue and buffer: each
    is acknowledged, in order; after as many drain turns the queue is empty
    and the buffer holds their bars in delivery order; and as many pulls
    load exactly those bars, in that order. *)
Theorem delivered_bars_are_loaded_in_order
    (s : feed) (msgs : list message) (dicts : list dict) (bars : list bar)
    (ds : list F) :
  running s = true ->
  message_queue s = [] ->
  data_buffer s = [] ->
  Forall2 (fun m d => json_loads (msg_data m) = Some (VDict d) /\
                      d !! "symbol" = Some (VStr (symbol (p s)))) msgs dicts ->
  Forall2 (fun d b => _process_market_data_message d = Some b) dicts bars ->
  Forall2 (fun b d => date2num (b_datetime b) = Some d) bars ds ->
  (length msgs <= max_buffer_size (p s))%nat ->
  log (deliver msgs s) = log s ++ map (fun m => EAck (msg_id m)) msgs /\
  message_queue (_process_message_queue (length msgs) (deliver msgs s)).2 = [] /\
  data_buffer (_process_message_queue (length msgs) (deliver msgs s)).2 = bars /\
  (pull (length bars)
        (_process_message_queue (length msgs) (deliver msgs s)).2).1 =
    zip_with (fun b d => (Ret Loaded, loaded_lines (lines s) b d)) bars ds.
Proof.
  intros Hr Hq Hb Hm Hd Hc Hcap.
  pose proof (Forall2_length _ _ _ Hm) as Hlen1.
  pose proof (Forall2_length _ _ _ Hd) as Hlen2.
  rewrite (deliver_matching msgs dicts s Hm), Hq. cbn [app].
  set (s1 := set_log _ _).
  assert (Hr1 : running s1 = true) by (subst s1; destruct s; exact Hr).
  assert (Hq1 : message_queue s1 = dicts) by (subst s1; destruct s; reflexivity).
  assert (Hb1 : data_buffer s1 = []) by (subst s1; destruct s; exact Hb).
  assert (Hp1 : p s1 = p s) by (subst s1; destruct s; reflexivity).
  assert (Hl1 : lines s1 = lines s) by (subst s1; destruct s; reflexivity).
  split; [subst s1; destruct s; reflexivity|].
  assert (Hqueue : message_queue (_process_message_queue (length msgs) s1).2 = []).
  { rewrite drain_queue by assumption. rewrite Hq1. apply drop_ge. lia. }
  assert (Hbuf : data_buffer (_process_message_queue (length msgs) s1).2 = bars).
  { rewrite (drain_history (length msgs) s1 bars []).
    - cbn [app]. rewrite take_ge by lia. apply last_n_short. rewrite Hp1. lia.
    - exact Hr1.
    - now rewrite Hq1.
    - rewrite Hb1. unfold last_n. reflexivity. }
  split; [exact Hqueue|]. split; [exact Hbuf|].
  destruct (drain_frame (length msgs) s1) as (Hr2 & Hl2 & _).
  destruct (pull_loaded bars ds Hc (_process_message_queue (length msgs) s1).2 [])
    as (H1 & _).
  - now rewrite Hr2.
  - now rewrite Hbuf, app_nil_r.
  - rewrite H1, Hl2, Hl1. reflexivity.
Qed.

(** *** Validation *)

(** X8: [_process_market_data_message] accepts a message exactly when its
    [type] is the string [bar], the seven required keys are present, the
    timestamp parses (a string through [fromisoformat] after every [Z]
    became [+00:00], anything else through [fromtimestamp]) and [float]
    accepts open, high, low, close, volume and the vwap (or, without a
    vwap, the close again); the bar it returns holds exactly those
    converted values.  Everything else, exceptions included, gives
    [None]. *)
Theorem process_accepts_exactly_complete_bars (d : dict) (b : bar) :
  _process_market_data_message d = Some b <->
  d !! "type" = Some (VStr "bar") /\
  is_Some (d !! "symbol") /\
  (exists ts, d !! "timestamp" = Some ts /\
     match ts with
     | VStr t => fromisoformat (str_replace "Z" "+00:00" t)
     | _ => fromtimestamp ts
     end = Some (b_datetime b)) /\
  (exists v, d !! "open" = Some v /\ py_float v = Some (b_open b)) /\
  (exists v, d !! "high" = Some v /\ py_float v = Some (b_high b)) /\
  (exists v, d !! "low" = Some v /\ py_float v = Some (b_low b)) /\
  (exists v, d !! "close" = Some v /\ py_float v = Some (b_close b) /\
             py_float (default v (d !! "vwap")) = Some (b_vwap b)) /\
  (exists v, d !! "volume" = Some v /\ py_float v = Some (b_volume b)).
Proof.
  unfold _process_market_data_message, float_item, getitem, required_fields, py_in.
  cbn [forallb]. run_monad. split.
  - destruct (py_eq_str (default VNone (d !! "type")) "bar") eqn:Ht;
      cbn [negb]; [|discriminate].
    apply py_eq_str_lookup in Ht.
    destruct (d !! "symbol") as [vs|]; cbn; [|discriminate].
    destruct (d !! "timestamp") as [ts|]; cbn; [|discriminate].
    destruct (d !! "open") as [vo|]; cbn; [|discriminate].
    destruct (d !! "high") as [vh|]; cbn; [|discriminate].
    destruct (d !! "low") as [vl|]; cbn; [|discriminate].
    destruct (d !! "close") as [vc|]; cbn; [|discriminate].
    destruct (d !! "volume") as [vv|]; cbn; [|discriminate].
    destruct (match ts with VStr _ => _ | _ => _ end) as [dt|] eqn:Hdt;
      [|discriminate].
    destruct (py_float vo) as [o|] eqn:Ho; [|discriminate].
    destruct (py_float vh) as [h|] eqn:Hh; [|discriminate].
    destruct (py_float vl) as [l|] eqn:Hl; [|discriminate].
    destruct (py_float vc) as [c|] eqn:Hc; [|discriminate].
    destruct (py_float vv) as [v|] eqn:Hv; [|discriminate].
    destruct (py_float (default vc (d !! "vwap"))) as [vw|] eqn:Hvw; [|discriminate].
    intros [= <-]. cbn. repeat split; eauto 10.
  - intros (Ht & [vs Hs] & (ts & Hts & Hdt) & (vo & Ho & Hfo) & (vh & Hh & Hfh) &
            (vl & Hl & Hfl) & (vc & Hc & Hfc & Hfvw) & (vv & Hv & Hfv)).
    apply py_eq_str_lookup in Ht.
    rewrite Ht, Hs, Hts, Ho, Hh, Hl, Hc, Hv. cbn.
    rewrite Hdt, Hfo, Hfh, Hfl, Hfc, Hfv, Hfvw. now destruct b.
Qed.

(** *** Timestamps *)

Lemma string_app_assoc (a b c : string) : (a +:+ b) +:+ c = a +:+ (b +:+ c).
Proof.
  induction a as [|x a IH]; [reflexivity|].
  change (String x ((a +:+ b) +:+ c) = String x (a +:+ (b +:+ c))).
  now rewrite IH.
Qed.

Lemma str_replace_app (old : ascii) (new a b : string) :
  str_replace old new (a +:+ b) = str_replace old new a +:+ str_replace old new b.
Proof.
  induction a as [|x a IH]; [reflexivity|].
  change (String x a +:+ b) with (String x (a +:+ b)).
  cbn [str_replace]. rewrite IH.
  destruct (bool_decide (x = old)); [|reflexivity].
  symmetry. apply string_app_assoc.
Qed.

(** X9: a timestamp string written with a [Z] and the same string with
    [+00:00] in its place are the same timestamp to the feed: the two
    messages are accepted or rejected together and give the same bar. *)
Theorem z_suffix_reads_as_utc_offset (d : dict) (t : string) :
  _process_market_data_message (<["timestamp" := VStr (t +:+ "Z")]> d) =
  _process_market_data_message (<["timestamp" := VStr (t +:+ "+00:00")]> d).
Proof.
  unfold _process_market_data_message, float_item, getitem, required_fields, py_in.
  cbn [forallb]. run_monad.
  rewrite !lookup_insert_eq.
  rewrite !lookup_insert_ne by discriminate.
  rewrite !str_replace_app. reflexivity.
Qed.

(** *** More on the monitor *)

(** X10: the monitor never raises and never touches the data path:
    whatever the subscription does, and for however long, the queue, the
    buffer, the last-bar snapshot, the lines and the parameters are as
    they were. *)
Theorem monitor_leaves_the_data_path_alone
    (evs : list (poll_result * option future)) (s : feed) :
  (exists st, (_monitor_subscription evs s).1 = Ret st) /\
  message_queue (_monitor_subscription evs s).2 = message_queue s /\
  data_buffer (_monitor_subscription evs s).2 = data_buffer s /\
  last_bar (_monitor_subscription evs s).2 = last_bar s /\
  lines (_monitor_subscription evs s).2 = lines s /\
  p (_monitor_subscription evs s).2 = p s.
Proof.
  split.
  - revert s. induction evs as [|[poll resub] evs IH]; intros s;
      rewrite monitor_subscription_unfold; destruct (running s); eauto.
    destruct (monitor_iteration_result poll resub s)
      as ([] & fut & r & a & lg & ->); eauto.
  - apply (monitor_subscription_keeps
             (fun s' => message_queue s' = message_queue s /\
                        data_buffer s' = data_buffer s /\
                        last_bar s' = last_bar s /\ lines s' = lines s /\
                        p s' = p s)); [|repeat split].
    intros poll resub s0 H0.
    now destruct (monitor_iteration_result poll resub s0)
      as (g & fut & r & a & lg & ->).
Qed.

Lemma monitor_iteration_attempts (poll : poll_result) (resub : option future) (s : feed) :
  0 <= _reconnect_attempts s <= max_reconnect_attempts (p s) ->
  0 <= _reconnect_attempts (monitor_iteration poll resub s).2
    <= max_reconnect_attempts (p (monitor_iteration poll resub s).2).
Proof.
  destruct s as [prm q b lb fut r a ln lg]. cbn. intros Ha.
  unfold monitor_iteration, future_result, _reconnect, subscribe. run_monad.
  destruct fut as [f0|], poll, resub as [f|]; cbn; try lia;
    destruct (r && (a <? max_reconnect_attempts prm)) eqn:E; cbn; try lia;
    apply andb_true_iff in E as [_ E]; apply Z.ltb_lt in E; lia.
Qed.

(** X11: from construction on, through any starts, deliveries, drain
    turns, monitor turns, pulls and stops, the attempt counter stays
    between 0 and [max_reconnect_attempts]. *)
Theorem attempt_counter_stays_within_ceiling (prm : params) (ops : list op) :
  0 <= max_reconnect_attempts prm ->
  0 <= _reconnect_attempts (op_run ops (init prm)) <= max_reconnect_attempts prm.
Proof.
  intros Hmax.
  assert (H : forall ops' (s : feed),
            0 <= _reconnect_attempts s <= max_reconnect_attempts (p s) ->
            0 <= _reconnect_attempts (op_run ops' s)
              <= max_reconnect_attempts (p (op_run ops' s)) /\
            p (op_run ops' s) = p s).
  { induction ops' as [|o ops' IH]; intros s Hs; [now split|].
    change (op_run (o :: ops') s) with (op_run ops' (op_step o s)).
    assert (Ho : 0 <= _reconnect_attempts (op_step o s)
                   <= max_reconnect_attempts (p (op_step o s)) /\
                 p (op_step o s) = p s).
    { destruct o as [sub|[msg|n|evs| |]]; cbn [op_step step].
      - rewrite start_result. now destruct sub.
      - rewrite callback_result. cbn [snd].
        destruct (json_loads (msg_data msg)) as [[]|]; try (now split).
        now destruct (py_eq_str _ _).
      - destruct (drain_frame n s) as (_ & _ & -> & _ & _ & ->). now split.
      - apply (monitor_subscription_keeps
                 (fun s' => 0 <= _reconnect_attempts s'
                              <= max_reconnect_attempts (p s') /\ p s' = p s));
          [|now split].
        intros poll resub s0 [H0 Hp0]. split.
        + now apply monitor_iteration_attempts.
        + now destruct (monitor_iteration_result poll resub s0)
            as (g & fut & r & a & lg & ->).
      - rewrite load_cases. destruct (running s); [|now split].
        destruct (data_buffer s) as [|b rest]; [now split|].
        destruct (date2num _); destruct s; now split.
      - rewrite stop_result. now split. }
    destruct Ho as [Ho Hpo]. destruct (IH _ Ho) as [H1 H2].
    split; [exact H1|congruence]. }
  destruct (H ops (init prm)) as [H1 H2]; [cbn; lia|].
  rewrite H2 in H1. exact H1.
Qed.

Lemma monitor_iteration_resubscribes (poll : poll_result) (f : future) (s : feed) :
  running s = true ->
  _reconnect_attempts s = 0 ->
  0 < max_reconnect_attempts (p s) ->
  (monitor_iteration poll (Some f) s).1 = Ret true /\
  running (monitor_iteration poll (Some f) s).2 = true /\
  _reconnect_attempts (monitor_iteration poll (Some f) s).2 = 0 /\
  p (monitor_iteration poll (Some f) s).2 = p s.
Proof.
  destruct s as [prm q b lb fut r a ln lg]. cbn. intros -> -> Hmax.
  apply Z.ltb_lt in Hmax.
  unfold monitor_iteration, future_result, _reconnect, subscribe. run_monad.
  destruct fut as [f0|], poll; cbn; rewrite ?Hmax; cbn; auto.
Qed.

(** X12: the ceiling only counts re-subscribe calls that raise.  With a
    ceiling of at least 1, as long as every re-subscribe call returns a
    future the monitor never gives up, however many subscription errors
    follow one another: it stays in its loop, the feed stays running and
    the counter is back at 0 after every turn. *)
Theorem monitor_never_gives_up_while_resubscribe_returns
    (evs : list (poll_result * option future)) (s : feed) :
  running s = true ->
  _reconnect_attempts s = 0 ->
  0 < max_reconnect_attempts (p s) ->
  Forall (fun ev => is_Some ev.2) evs ->
  (_monitor_subscription evs s).1 = Ret Looping /\
  running (_monitor_subscription evs s).2 = true /\
  _reconnect_attempts (_monitor_subscription evs s).2 = 0.
Proof.
  revert s. induction evs as [|[poll resub] evs IH]; intros s Hr Ha Hmax Hall;
    rewrite monitor_subscription_unfold, Hr; [now cbn|].
  apply Forall_cons in Hall as [Hf Hall]. cbn in Hf. destruct Hf as [f ->].
  destruct (monitor_iteration_resubscribes poll f s Hr Ha Hmax)
    as (H1 & H2 & H3 & H4).
  destruct (monitor_iteration poll (Some f) s) as [o s']; cbn in *; subst o.
  apply IH; auto. now rewrite H4.
Qed.

(** X13: [start] does not reset the attempt counter.  Once the monitor has
    given up after [n] failed re-subscribes, a restart raises the running
    flag with the counter still at the ceiling, and the very next
    subscription error ends the feed again, without any new attempt. *)
Theorem restart_after_giving_up_has_no_retries
    (s : feed) (n : nat) (f : future) (resub : option future)
    (rest : list (poll_result * option future)) :
  running s = true ->
  _reconnect_attempts s = 0 ->
  max_reconnect_attempts (p s) = Z.of_nat n ->
  running (start (Some f)
             (_monitor_subscription (repeat (PollError, None) (S n)) s).2).2 = true /\
  _reconnect_attempts
    (start (Some f)
       (_monitor_subscription (repeat (PollError, None) (S n)) s).2).2 = Z.of_nat n /\
  _monitor_subscription ((PollError, resub) :: rest)
    (start (Some f) (_monitor_subscription (repeat (PollError, None) (S n)) s).2).2 =
    (Ret Exited,
     set_running false
       (start (Some f)
          (_monitor_subscription (repeat (PollError, None) (S n)) s).2).2).
Proof.
  intros Hr Ha Hmax.
  replace (repeat (PollError, @None future) (S n))
    with (repeat (PollError, @None future) n ++ [(PollError, None)]).
  2:{ change (repeat ?x (S n)) with (x :: repeat x n). now rewrite repeat_cons. }
  destruct (monitor_failed_retries n s [(PollError, None)])
    as (s' & Hrun & Hr' & Hp' & _ & Ha'); [assumption|lia|].
  rewrite Hrun, monitor_subscription_unfold, Hr'.
  rewrite monitor_iteration_exhausted by (rewrite Hp', Ha'; lia).
  cbn [snd]. rewrite start_result. cbn [snd].
  split; [reflexivity|]. split; [cbn; lia|].
  rewrite monitor_subscription_unfold. cbn [running].
  rewrite monitor_iteration_exhausted; [reflexivity|].
  cbn. rewrite Hp', Ha'. lia.
Qed.

(** *** More on the manager *)

Lemma dict_lookup_set_ne {V : Type} (k k' : string) (v : V) (d : list (string * V)) :
  k' <> k -> dict_lookup k' (dict_set k v d) = dict_lookup k' d.
Proof.
  intros Hne. induction d as [|[k0 v0] d IH]; cbn.
  - apply String.eqb_neq in Hne. rewrite String.eqb_sym in Hne. now rewrite Hne.
  - destruct (String.eqb k0 k) eqn:E; cbn.
    + apply String.eqb_eq in E. subst k0.
      assert (E' : String.eqb k k' = false)
        by (apply String.eqb_neq; congruence).
      now rewrite E'.
    + destruct (String.eqb k0 k'); [reflexivity|exact IH].
Qed.

Lemma dict_keys_set {V : Type} (k x : string) (v : V) (d : list (string * V)) :
  x ∈ dict_keys (dict_set k v d) -> x = k \/ x ∈ dict_keys d.
Proof.
  unfold dict_keys. induction d as [|[k' v'] d IH]; cbn.
  - intros H. apply list_elem_of_singleton in H. now left.
  - destruct (String.eqb k' k) eqn:E; cbn; intros H; apply elem_of_cons in H as [H|H].
    + now left.
    + right. now apply list_elem_of_further.
    + right. subst. apply list_elem_of_here.
    + destruct (IH H) as [H'|H']; [now left|right]. now apply list_elem_of_further.
Qed.

Lemma dict_keys_set_nodup {V : Type} (k : string) (v : V) (d : list (string * V)) :
  NoDup (dict_keys d) -> NoDup (dict_keys (dict_set k v d)).
Proof.
  unfold dict_keys. induction d as [|[k' v'] d IH]; cbn; intros Hnd.
  - apply NoDup_singleton.
  - apply NoDup_cons in Hnd as [Hk' Hnd].
    destruct (String.eqb k' k) eqn:E; cbn.
    + apply String.eqb_eq in E. subst k'. now apply NoDup_cons.
    + apply String.eqb_neq in E. apply NoDup_cons. split; [|now apply IH].
      intros Hin. apply (dict_keys_set k k' v d) in Hin as [Hin|Hin];
        [congruence|exact (Hk' Hin)].
Qed.

Lemma dict_values_set_nodup {V : Type} (k : string) (v : V) (d : list (string * V)) :
  NoDup (dict_values d) -> v ∉ dict_values d -> NoDup (dict_values (dict_set k v d)).
Proof.
  unfold dict_values. induction d as [|[k' v'] d IH]; cbn; intros Hnd Hv.
  - apply NoDup_singleton.
  - apply NoDup_cons in Hnd as [Hv' Hnd].
    apply not_elem_of_cons in Hv as [Hne Hv].
    destruct (String.eqb k' k); cbn.
    + now apply NoDup_cons.
    + apply NoDup_cons. split; [|now apply IH].
      intros Hin. apply (dict_values_set k v v' d) in Hin as [Hin|Hin];
        [congruence|exact (Hv' Hin)].
Qed.

Lemma add_alternative_data_feed_valid (t : string) (w : world) :
  refs_valid w -> refs_valid (add_alternative_data_feed t w).2.
Proof.
  unfold refs_valid. rewrite !Forall_forall. intros Hwf r Hr. cbn in *.
  rewrite length_app. cbn.
  apply dict_values_set in Hr as [->|Hr]; [lia|].
  specialize (Hwf r Hr). lia.
Qed.

Lemma manager_inv_init (project : string) : manager_inv project (manager_init project).
Proof.
  repeat split; cbn; try apply NoDup_nil_2; constructor.
Qed.

Lemma fresh_ref_not_registered (w : world) :
  refs_valid w -> length (store w) ∉ dict_values (data_feeds w).
Proof.
  unfold refs_valid. rewrite Forall_forall. intros Hwf Hin.
  specialize (Hwf _ Hin). lia.
Qed.

Lemma manager_inv_add (project : string) (o : add_op) (w : world) :
  manager_inv project w -> manager_inv project (add_step o w).
Proof.
  intros (Hwf & Hk & Hv & Hc & Hp & Hfresh).
  pose proof (fresh_ref_not_registered w Hwf) as Hnew.
  destruct o as [sym tf|t]; cbn [add_step].
  - split; [now apply add_market_data_feed_valid|]. cbn.
    split; [now apply dict_keys_set_nodup|].
    split; [now apply dict_values_set_nodup|].
    split; [rewrite length_app, Hc; cbn; now rewrite Nat.add_1_r, seq_S|].
    split; [exact Hp|].
    apply Forall_app. split; [exact Hfresh|].
    apply Forall_singleton. eexists. split; [reflexivity|]. cbn. auto.
  - split; [now apply add_alternative_data_feed_valid|]. cbn.
    split; [now apply dict_keys_set_nodup|].
    split; [now apply dict_values_set_nodup|].
    split; [rewrite length_app, Hc; cbn; now rewrite Nat.add_1_r, seq_S|].
    split; [exact Hp|].
    apply Forall_app. split; [exact Hfresh|].
    apply Forall_singleton. eexists. split; [reflexivity|]. cbn. auto.
Qed.

Lemma manager_inv_run (project : string) (ops : list add_op) (w : world) :
  manager_inv project w ->
  manager_inv project (add_run ops w) /\
  length (store (add_run ops w)) = (length (store w) + length ops)%nat.
Proof.
  revert w. induction ops as [|o ops IH]; intros w Hw; [cbn; split; [exact Hw|lia]|].
  change (add_run (o :: ops) w) with (add_run ops (add_step o w)).
  destruct (IH _ (manager_inv_add project o w Hw)) as [H1 H2].
  split; [exact H1|]. rewrite H2.
  destruct o; cbn; rewrite length_app; cbn; lia.
Qed.

(** X14: a manager that only had feeds added (market or alternative, in
    any number and order, repeats included) keeps its books straight:
    every reference in its dictionary points at a feed object, no key and
    no feed appears twice, cerebro holds one entry per call in creation
    order, and every feed object is still as constructed (not running,
    nothing buffered) for the manager's project with capacity 1000, a
    5 second backoff and 10 attempts. *)
Theorem manager_keeps_its_books (project : string) (ops : list add_op) :
  refs_valid (add_run ops (manager_init project)) /\
  NoDup (dict_keys (data_feeds (add_run ops (manager_init project)))) /\
  NoDup (dict_values (data_feeds (add_run ops (manager_init project)))) /\
  cerebro_datas (add_run ops (manager_init project)) = seq 0 (length ops) /\
  length (store (add_run ops (manager_init project))) = length ops /\
  Forall (fun s => exists prm,
            s = init prm /\ project_id prm = project /\
            max_buffer_size prm = 1000%nat /\ reconnect_timeout prm = 5 /\
            max_reconnect_attempts prm = 10)
         (store (add_run ops (manager_init project))).
Proof.
  destruct (manager_inv_run project ops _ (manager_inv_init project))
    as [(Hwf & Hk & Hv & Hc & _ & Hfresh) Hlen].
  cbn in Hlen. rewrite Hlen in Hc. auto 10.
Qed.

(** X15: registering a market feed binds its symbol and nothing else.
    The symbol now maps to the new feed, every other key maps to what it
    mapped to before, the feed objects that existed are unchanged, and the
    new feed is a stopped, empty feed that filters on the symbol. *)
Theorem add_market_data_feed_binds_only_its_symbol
    (w : world) (sym tf k : string) (r' : nat) :
  dict_lookup sym (data_feeds (add_market_data_feed sym tf w).2) =
    Some (add_market_data_feed sym tf w).1 /\
  (k <> sym ->
   dict_lookup k (data_feeds (add_market_data_feed sym tf w).2) =
     dict_lookup k (data_feeds w)) /\
  ((r' < length (store w))%nat ->
   store (add_market_data_feed sym tf w).2 !! r' = store w !! r') /\
  (exists s,
     store (add_market_data_feed sym tf w).2 !! (add_market_data_feed sym tf w).1
       = Some s /\
     symbol (p s) = sym /\
     running s = false /\ data_buffer s = [] /\ message_queue s = []).
Proof.
  cbn. split; [apply dict_lookup_set|]. split; [apply dict_lookup_set_ne|].
  split; [intros Hlt; now apply lookup_app_l|].
  eexists. split.
  { rewrite lookup_app_r by lia. rewrite Nat.sub_diag. reflexivity. }
  repeat split.
Qed.

Lemma alt_key_differs (t : string) : "alt-" +:+ t <> t.
Proof.
  intros H. apply (f_equal String.length) in H.
  change ("alt-" +:+ t) with (String "a" (String "l" (String "t" (String "-" t)))) in H.
  cbn in H. lia.
Qed.

(** X16: an alternative-data feed is filed under [alt-<type>] but filters
    on the bare type as its symbol.  So registering it never displaces a
    market feed whose symbol equals the type (both stay registered), while
    the status under [alt-<type>] names the bare type as its symbol. *)
Theorem alternative_feed_is_filed_under_its_own_key (w : world) (t : string) :
  dict_lookup t (data_feeds (add_alternative_data_feed t w).2) =
    dict_lookup t (data_feeds w) /\
  dict_lookup ("alt-" +:+ t) (data_feeds (add_alternative_data_feed t w).2) =
    Some (add_alternative_data_feed t w).1 /\
  (exists s,
     store (add_alternative_data_feed t w).2 !! (add_alternative_data_feed t w).1
       = Some s /\
     symbol (p s) = t /\
     st_symbol (get_buffer_status s) = t /\
     subscription_name (p s) = "alternative-data-" +:+ t /\
     running s = false).
Proof.
  cbn. split.
  { apply dict_lookup_set_ne. intros H. symmetry in H. now apply alt_key_differs in H. }
  split; [apply dict_lookup_set|].
  eexists. split.
  { rewrite lookup_app_r by lia. rewrite Nat.sub_diag. reflexivity. }
  repeat split.
Qed.

Lemma get_status_keys (w : world) :
  refs_valid w -> dict_keys (get_status w) = dict_keys (data_feeds w).
Proof.
  unfold refs_valid, get_status, dict_values, dict_keys.
  induction (data_feeds w) as [|[k' r'] d IH]; intros Hwf; [reflexivity|].
  cbn in Hwf. apply Forall_cons in Hwf as [Hr' Hwf].
  destruct (lookup_lt_is_Some_2 _ _ Hr') as [s' Hs'].
  cbn. rewrite Hs'. cbn. f_equal. now apply IH.
Qed.

(** X17: [get_status] reports every registered feed, once, under its key
    and in registration order, and what it reports under a key is the
    buffer status of the feed the key maps to. *)
Theorem get_status_reports_every_registered_feed (w : world) (k : string) :
  refs_valid w ->
  dict_keys (get_status w) = dict_keys (data_feeds w) /\
  dict_lookup k (get_status w) =
    match dict_lookup k (data_feeds w) with
    | Some r => get_buffer_status <$> store w !! r
    | None => None
    end.
Proof.
  intros Hwf. split; [now apply get_status_keys|now apply get_status_lookup].
Qed.

(** *** Starting the feeds *)

Lemma for_each_app (method : nat -> M unit) (l1 l2 : list nat) :
  forall w : world,
    for_each method (l1 ++ l2) w =
      match for_each method l1 w with
      | (Ret _, w1) => for_each method l2 w1
      | (Raise e, w1) => (Raise e, w1)
      end.
Proof.
  induction l1 as [|r l1 IH]; intros w; [reflexivity|].
  cbn [app for_each]. destruct (call r (method r) w) as [[[]|e] w1]; [apply IH|reflexivity].
Qed.

(** X18: [start_all_feeds] gives up at the first feed whose [subscribe]
    raises.  The exception leaves the method; the feeds that come later in
    the dictionary are not started at all; and the feed that failed is
    left with its running flag up but without a future and without its
    two threads. *)
Theorem start_all_feeds_stops_at_first_failure
    (w : world) (sub : nat -> option future) (pre post : list nat) (r : nat) :
  refs_valid w ->
  dict_values (data_feeds w) = pre ++ r :: post ->
  r ∉ pre ->
  (forall r', r' ∈ pre -> is_Some (sub r')) ->
  sub r = None ->
  (start_all_feeds sub w).1 = Raise OtherException /\
  (forall r', r' ∉ pre -> r' <> r ->
     store (start_all_feeds sub w).2 !! r' = store w !! r') /\
  (exists s, store w !! r = Some s /\
             store (start_all_feeds sub w).2 !! r = Some (set_running true s)).
Proof.
  intros Hwf Hvals Hr Hpre Hfail.
  unfold start_all_feeds. unfold refs_valid in Hwf. rewrite Hvals in *.
  apply Forall_app in Hwf as [Hwf_pre Hwf_r].
  apply Forall_cons in Hwf_r as [Hwf_r _].
  destruct (lookup_lt_is_Some_2 _ _ Hwf_r) as [s Hs].
  destruct (for_each_start sub pre w Hwf_pre Hpre) as [Hret _].
  destruct (for_each_frame (fun r => start (sub r)) pre w r Hr) as (Hsame & _).
  rewrite for_each_app.
  destruct (for_each (fun r => start (sub r)) pre w) as [o w1] eqn:Hpre_run.
  cbn [fst snd] in *. subst o.
  cbn [for_each]. rewrite <- Hsame in Hs.
  rewrite (call_start r (sub r) w1 s Hs), start_result, Hfail. cbn [fst snd].
  split; [reflexivity|]. split.
  - intros r' Hr' Hne. cbn. rewrite list_lookup_insert_ne by congruence.
    destruct (for_each_frame (fun r => start (sub r)) pre w r' Hr') as (H & _).
    now rewrite Hpre_run in H.
  - exists s. split; [now rewrite <- Hsame|].
    cbn. apply list_lookup_insert_eq. now apply lookup_lt_Some in Hs.
Qed.

(** *** The caller's setup *)



End RunProperties.

(** * The properties at work on the small runtime *)

Section Examples.
Import Demo.

(** Capacity 3, closes 10, 11, 12, 13 delivered in order: the buffer keeps
    11, 12, 13; three pulls load them oldest first, the fourth finds the
    running feed empty, and after [stop] the answer is [Ended]. *)
Example capacity3_scenario :
  let s0 := (_process_message_queue 4 capacity3_feed).2 in
  let s1 := (_load s0).2 in
  let s2 := (_load s1).2 in
  let s3 := (_load s2).2 in
  b_close <$> data_buffer s0 = [11; 12; 13] /\
  ((_load s0).1, l_close (lines s1)) = (Ret Loaded, 11) /\
  ((_load s1).1, l_close (lines s2)) = (Ret Loaded, 12) /\
  ((_load s2).1, l_close (lines s3)) = (Ret Loaded, 13) /\
  (_load s3).1 = Ret Empty /\
  (_load (stop s3).2).1 = Ret Ended.
Proof. vm_compute. repeat split. Qed.

(** The ring buffer at capacity 3 with closes 10, 11, 12, 13 delivered. *)
Lemma ring_buffer_keeps_most_recent_witness :
  running capacity3_feed = true /\
  message_queue capacity3_feed = closes_queue /\
  Forall2 (fun m b => _process_market_data_message m = Some b)
          closes_queue closes_bars /\
  (length (data_buffer capacity3_feed) <= max_buffer_size (p capacity3_feed))%nat /\
  data_buffer (_process_message_queue 4 capacity3_feed).2 =
    last_n 3 (data_buffer capacity3_feed ++ take 4 closes_bars).
Proof.
  assert (Hv : Forall2 (fun m b => _process_market_data_message m = Some b)
                       closes_queue closes_bars).
  { repeat constructor. }
  assert (Hl : (length (data_buffer capacity3_feed)
                <= max_buffer_size (p capacity3_feed))%nat).
  { vm_compute. lia. }
  split; [reflexivity|]. split; [reflexivity|]. split; [exact Hv|].
  split; [exact Hl|].
  exact (proj1 (ring_buffer_keeps_most_recent capacity3_feed closes_queue
                  closes_bars 4 eq_refl eq_refl Hv Hl)).
Defined.




Lemma msft_is_not_aapl : "MSFT" <> symbol (p aapl_started).
Proof. discriminate. Defined.

Lemma other_symbol_acked_and_dropped_witness :
  json_loads [Byte.x02] = Some (VDict (bar_message "MSFT" 100 20 20 20 20 1)) /\
  _pubsub_callback (Message 8 [Byte.x02]) aapl_started =
    (Ret tt, set_log (log aapl_started ++ [EAck 8%nat]) aapl_started).
Proof.
  split; [reflexivity|].
  exact (proj1 (other_symbol_acked_and_dropped aapl_started (Message 8 [Byte.x02])
                  (bar_message "MSFT" 100 20 20 20 20 1) "MSFT" eq_refl eq_refl
                  msft_is_not_aapl)).
Defined.

(** C6 (as stated) fails: after exactly ten consecutive errors with every
    re-subscribe raising, the default feed is still running. *)
Lemma down_after_max_errors_counterexample :
  ~ down_after_max_errors aapl_started.
Proof.
  intros [H _]. vm_compute in H. discriminate.
Qed.

Lemma monitor_gives_up_after_max_failed_retries_witness :
  running aapl_started = true /\
  _reconnect_attempts aapl_started = 0 /\
  max_reconnect_attempts (p aapl_started) = Z.of_nat 10 /\
  running (_monitor_subscription
             (repeat (PollError, None) 11 ++ [(PollReturned, Some 1%nat)])
             aapl_started).2 = false.
Proof.
  pose proof (monitor_gives_up_after_max_failed_retries aapl_started 10
                [(PollReturned, Some 1%nat)] [] eq_refl eq_refl eq_refl)
    as (_ & _ & Hdown & _).
  split; [reflexivity|]. split; [reflexivity|]. split; [reflexivity|].
  exact Hdown.
Defined.

Lemma attempts_below_ceiling :
  _reconnect_attempts aapl_started < max_reconnect_attempts (p aapl_started).
Proof. reflexivity. Defined.

Lemma reconnect_fixed_backoff_then_reset_witness :
  running aapl_started = true /\
  _reconnect_attempts aapl_started < max_reconnect_attempts (p aapl_started) /\
  (monitor_iteration PollError (Some 1%nat) aapl_started).1 = Ret true.
Proof.
  pose proof (reconnect_fixed_backoff_then_reset aapl_started 1%nat eq_refl
                attempts_below_ceiling) as (Hok & _).
  split; [reflexivity|]. split; [exact attempts_below_ceiling|].
  exact (f_equal fst Hok).
Defined.

Lemma two_feeds_valid : refs_valid two_feeds.
Proof. repeat constructor. Defined.

Lemma stop_is_safe_and_idempotent_witness :
  refs_valid two_feeds /\
  (stop (init aapl_params)).1 = Ret tt /\
  (stop_all_feeds two_feeds).1 = Ret tt.
Proof.
  pose proof (stop_is_safe_and_idempotent (init aapl_params) 1 [] two_feeds
                two_feeds_valid) as (Hstop & _ & _ & _ & Hall & _).
  split; [exact two_feeds_valid|]. split; assumption.
Defined.

Lemma vwap_stored_but_never_loaded_witness :
  _process_market_data_message (bar_message "AAPL" 100 10 10 10 10 1) =
    Some (Bar 100 10 10 10 10 1 10) /\
  (_load (set_data_buffer [with_vwap 99 (Bar 100 10 10 10 10 1 10)] aapl_started)).1 =
    (_load (set_data_buffer [Bar 100 10 10 10 10 1 10] aapl_started)).1.
Proof.
  pose proof (vwap_stored_but_never_loaded (bar_message "AAPL" 100 10 10 10 10 1)
                (Bar 100 10 10 10 10 1 10) aapl_started [] 99 eq_refl)
    as (_ & _ & Hsame & _).
  split; [reflexivity|exact Hsame].
Defined.

Lemma empty_manager_valid : refs_valid (@manager_init Z Z "farm").
Proof. constructor. Defined.

Lemma every_subscribe_returns :
  forall r : nat,
    r ∈ dict_values
          (data_feeds
             (add_market_data_feed "AAPL" "5Min"
                (add_market_data_feed "AAPL" "1Min" (@manager_init Z Z "farm")).2).2) ->
    is_Some (@Some future r).
Proof. intros r _. eexists. reflexivity. Defined.

Lemma second_feed_replaces_first_witness :
  refs_valid (@manager_init Z Z "farm") /\
  dict_lookup "AAPL"
    (data_feeds
       (add_market_data_feed "AAPL" "5Min"
          (add_market_data_feed "AAPL" "1Min" (manager_init "farm")).2).2)
    = Some 1%nat /\
  (exists s2,
     store (start_all_feeds Some
              (add_market_data_feed "AAPL" "5Min"
                 (add_market_data_feed "AAPL" "1Min" (manager_init "farm")).2).2).2
       !! 1%nat = Some s2 /\
     running s2 = true /\ _streaming_pull_future s2 = Some 1%nat) /\
  (exists s2,
     store (stop_all_feeds
              (start_all_feeds Some
                 (add_market_data_feed "AAPL" "5Min"
                    (add_market_data_feed "AAPL" "1Min" (manager_init "farm")).2).2).2).2
       !! 1%nat = Some s2 /\
     running s2 = false).
Proof.
  pose proof (second_feed_replaces_first (manager_init "farm") "AAPL" "1Min" "5Min"
                Some empty_manager_valid)
    as (_ & Hlook & _ & _ & _ & _ & _ & _ & _ & _ & _ & _ & Hacts).
  destruct (Hacts every_subscribe_returns) as (_ & Hstart & _ & _ & Hstop & _).
  split; [exact empty_manager_valid|]. split; [exact Hlook|].
  split; [exact Hstart|exact Hstop].
Defined.

End Examples.

(** * The further properties at work on the small runtime *)

Section RunExamples.
Import Demo DemoRuns.

(** The [Z] of an ISO timestamp becomes [+00:00]. *)
Example str_replace_z :
  str_replace "Z" "+00:00" "2023-04-09T10:24:31.123456Z"
  = "2023-04-09T10:24:31.123456+00:00".
Proof. reflexivity. Qed.

Lemma one_bar_buffered : data_buffer (op_run one_bar_life (init aapl_params)) <> [].
Proof. discriminate. Defined.

Lemma last_bar_is_newest_buffered_witness :
  data_buffer (op_run one_bar_life (init aapl_params)) <> [] /\
  last_bar (op_run one_bar_life (init aapl_params)) = Some (Bar 100 10 10 10 10 1 10).
Proof.
  split; [exact one_bar_buffered|].
  exact (last_bar_is_newest_buffered aapl_params one_bar_life one_bar_buffered).
Defined.

Lemma last3_convert :
  Forall2 (fun b d => date2num (b_datetime b) = Some d) last3_bars [101; 102; 103].
Proof. repeat constructor. Defined.

Lemma pull_is_fifo_witness :
  running capacity3_drained = true /\
  data_buffer capacity3_drained = last3_bars /\
  Forall2 (fun b d => date2num (b_datetime b) = Some d) last3_bars [101; 102; 103] /\
  (pull 3 capacity3_drained).1 =
    [(Ret Loaded, Lines 101 11 11 11 11 1 0); (Ret Loaded, Lines 102 12 12 12 12 1 0);
     (Ret Loaded, Lines 103 13 13 13 13 1 0)].
Proof.
  split; [reflexivity|]. split; [reflexivity|]. split; [exact last3_convert|].
  exact (proj1 (pull_is_fifo capacity3_drained last3_bars [101; 102; 103]
                  eq_refl eq_refl last3_convert)).
Defined.

Lemma pull_takes_one_bar_per_call_witness :
  running capacity3_drained = true /\
  data_buffer (pull 2 capacity3_drained).2 = [Bar 103 13 13 13 13 1 13].
Proof.
  split; [reflexivity|].
  exact (proj1 (pull_takes_one_bar_per_call capacity3_drained 2 eq_refl)).
Defined.

Lemma unread_bars_survive_stop_and_restart_witness :
  Forall2 (fun b d => date2num (b_datetime b) = Some d)
          (data_buffer capacity3_drained) [101; 102; 103] /\
  data_buffer (pull 2 (stop capacity3_drained).2).2 = last3_bars.
Proof.
  split; [exact last3_convert|].
  exact (proj1 (proj2 (unread_bars_survive_stop_and_restart capacity3_drained 2 1%nat
                         [101; 102; 103] last3_convert))).
Defined.

Lemma two_deliveries_decode :
  Forall2 (fun m d => json_loads (msg_data m) = Some (VDict d) /\
                      d !! "symbol" = Some (VStr (symbol (p aapl_started))))
          two_deliveries
          [bar_message "AAPL" 100 10 10 10 10 1; bar_message "AAPL" 100 10 10 10 10 1].
Proof. repeat constructor. Defined.

Lemma two_deliveries_accepted :
  Forall2 (fun d b => _process_market_data_message d = Some b)
          [bar_message "AAPL" 100 10 10 10 10 1; bar_message "AAPL" 100 10 10 10 10 1]
          [Bar 100 10 10 10 10 1 10; Bar 100 10 10 10 10 1 10].
Proof. repeat constructor. Defined.

Lemma two_deliveries_convert :
  Forall2 (fun b d => date2num (b_datetime b) = Some d)
          [Bar 100 10 10 10 10 1 10; Bar 100 10 10 10 10 1 10] [100; 100].
Proof. repeat constructor. Defined.

Lemma two_deliveries_fit :
  (length two_deliveries <= max_buffer_size (p aapl_started))%nat.
Proof. vm_compute. lia. Defined.

Lemma delivered_bars_are_loaded_in_order_witness :
  (length two_deliveries <= max_buffer_size (p aapl_started))%nat /\
  data_buffer (_process_message_queue (length two_deliveries)
                 (deliver two_deliveries aapl_started)).2 =
    [Bar 100 10 10 10 10 1 10; Bar 100 10 10 10 10 1 10].
Proof.
  split; [exact two_deliveries_fit|].
  exact (proj1 (proj2 (proj2
    (delivered_bars_are_loaded_in_order aapl_started two_deliveries _ _ _
       eq_refl eq_refl eq_refl two_deliveries_decode two_deliveries_accepted
       two_deliveries_convert two_deliveries_fit)))).
Defined.

Lemma default_ceiling_nonnegative : 0 <= max_reconnect_attempts aapl_params.
Proof. discriminate. Defined.

Lemma attempt_counter_stays_within_ceiling_witness :
  0 <= max_reconnect_attempts aapl_params /\
  0 <= _reconnect_attempts
         (op_run [OStart (Some 0%nat);
                  OStep (AMonitor (repeat (PollError, None) 4))]
                 (init aapl_params)) <= 10.
Proof.
  split; [exact default_ceiling_nonnegative|].
  exact (attempt_counter_stays_within_ceiling aapl_params
           [OStart (Some 0%nat); OStep (AMonitor (repeat (PollError, None) 4))]
           default_ceiling_nonnegative).
Defined.

Lemma twelve_resubscribes :
  Forall (fun ev : poll_result * option future => is_Some ev.2)
         (repeat (PollError, Some 1%nat) 12).
Proof. repeat constructor; eexists; reflexivity. Defined.

Lemma ceiling_positive : 0 < max_reconnect_attempts (p aapl_started).
Proof. reflexivity. Defined.

Lemma monitor_never_gives_up_while_resubscribe_returns_witness :
  running aapl_started = true /\
  _reconnect_attempts aapl_started = 0 /\
  0 < max_reconnect_attempts (p aapl_started) /\
  running (_monitor_subscription (repeat (PollError, Some 1%nat) 12) aapl_started).2
    = true.
Proof.
  split; [reflexivity|]. split; [reflexivity|]. split; [exact ceiling_positive|].
  exact (proj1 (proj2 (monitor_never_gives_up_while_resubscribe_returns
                         (repeat (PollError, Some 1%nat) 12) aapl_started
                         eq_refl eq_refl ceiling_positive twelve_resubscribes))).
Defined.

Lemma restart_after_giving_up_has_no_retries_witness :
  running aapl_started = true /\
  _reconnect_attempts aapl_started = 0 /\
  max_reconnect_attempts (p aapl_started) = Z.of_nat 10 /\
  running (start (Some 5%nat)
             (_monitor_subscription (repeat (PollError, None) 11) aapl_started).2).2
    = true.
Proof.
  split; [reflexivity|]. split; [reflexivity|]. split; [reflexivity|].
  exact (proj1 (restart_after_giving_up_has_no_retries aapl_started 10 5%nat
                  (Some 6%nat) [] eq_refl eq_refl eq_refl)).
Defined.

Lemma two_feeds_refs_valid : refs_valid two_feeds.
Proof. repeat constructor. Defined.

Lemma get_status_reports_every_registered_feed_witness :
  refs_valid two_feeds /\
  dict_keys (get_status two_feeds) = ["AAPL"; "MSFT"].
Proof.
  split; [exact two_feeds_refs_valid|].
  exact (proj1 (get_status_reports_every_registered_feed two_feeds "AAPL"
                  two_feeds_refs_valid)).
Defined.

Lemma nothing_before_first : (0%nat : nat) ∉ ([] : list nat).
Proof. intros H. inversion H. Defined.

Lemma all_before_first_succeed :
  forall r' : nat, r' ∈ ([] : list nat) -> is_Some (first_fails r').
Proof. intros r' H. inversion H. Defined.

Lemma start_all_feeds_stops_at_first_failure_witness :
  refs_valid two_feeds /\
  dict_values (data_feeds two_feeds) = [] ++ 0%nat :: [1%nat] /\
  first_fails 0 = None /\
  (start_all_feeds first_fails two_feeds).1 = Raise OtherException.
Proof.
  split; [exact two_feeds_refs_valid|]. split; [reflexivity|]. split; [reflexivity|].
  exact (proj1 (start_all_feeds_stops_at_first_failure two_feeds first_fails [] [1%nat]
                  0%nat two_feeds_refs_valid eq_refl nothing_before_first
                  all_before_first_succeed eq_refl)).
Defined.



End RunExamples.

(** * The pull contract on the runtime with real timestamps *)

Section CalendarExamples.
Import Calendar.

(** A bar stamped with the start of the Unix epoch is loaded, and the
    datetime line holds day 719163. *)
Example epoch_bar_is_loaded :
  data_buffer epoch_buffered <> [] /\
  (_load epoch_buffered).1 = Ret Loaded /\
  l_datetime (lines (_load epoch_buffered).2) = Finite (inject_Z 719163).
Proof. vm_compute. repeat split. discriminate. Qed.

(** The timestamp of the module's docstring is accepted, its [Z] read as
    UTC, and is written back by [isoformat] with the offset spelled
    out. *)
Example docstring_timestamp_round_trip :
  isoformat <$> (b_datetime <$> _process_market_data_message docstring_message)
  = Some "2023-04-09T10:24:31.123456+00:00".
Proof. vm_compute. reflexivity. Qed.

(** C1 (as stated) fails.  A message for the feed's symbol with timestamp
    [0001-01-01T00:00:00+01:00] is delivered and drained: [fromisoformat]
    accepts the timestamp and the bar is buffered.  The feed is running
    and its buffer is not empty, yet [_load] answers [Empty]: [date2num]
    subtracts the hour, which falls before [datetime.min] and raises
    [OverflowError], and the bar is skipped. *)
Lemma load_three_cases_counterexample :
  ~ load_contract_three_cases year1_buffered.
Proof.
  intros (_ & _ & H).
  destruct (H eq_refl year1_bar [] eq_refl) as [Hres _].
  vm_compute in Hres. discriminate.
Qed.

End CalendarExamples.
